(** * Quiz-App-Express: class and quiz routes

    A shallow embedding of the route handlers of [routes/classes.js]
    (the [Quiz]-aware revision of the router) over the Mongoose schemas
    of [models/models.js], and the properties of the quiz window, the
    ownership checks and the class membership operations.

    Conventions of the embedding.
    - An [ObjectId] is a number.  Only well-formed ids are modelled, so the
      [CastError] that Mongoose raises on a malformed id string is outside
      the model.
    - A JavaScript [Date] is its time value in milliseconds, or [None] for
      an Invalid Date (time value NaN).  Every comparison with an Invalid
      Date is false, as in JavaScript.
    - [duration] is a whole number of minutes; the arithmetic on time values
      is then exact.
    - The [start_date] of a request body is kept as the JSON value it is:
      the routes test [new Date(start_date)] and store what Mongoose casts
      [start_date] to, and the two read a string of digits differently.
    - A handler is a computation over the [World] (the three collections and
      the console) that either falls through to its next statement, leaves
      through [return res...json(...)], or throws.
    - Reads of the database succeed; the writes consult the [Env] of the
      request to know whether the storage accepts them. *)

From Stdlib Require Import ZArith NArith String List Lia.
From stdpp Require Import base option gmap list strings.

Local Open Scope string_scope.
Local Open Scope Z_scope.

(** ** Values *)

Abbreviation ObjectId := N.

Definition Date : Type := option Z.

(** The largest time value a [Date] holds (ECMAScript TimeClip). *)
Definition maxTime : Z := 8640000000000000.

(** [new Date(t)] for a number [t]. *)
Definition new_Date (t : Z) : Date :=
  if Z.abs t <=? maxTime then Some t else None.

(** [a < b], [a <= b] and [a > b] on dates: false when either is invalid. *)
Definition date_lt (a b : Date) : bool :=
  match a, b with
  | Some x, Some y => x <? y
  | _, _ => false
  end.

Definition date_le (a b : Date) : bool :=
  match a, b with
  | Some x, Some y => x <=? y
  | _, _ => false
  end.

Definition date_gt (a b : Date) : bool := date_lt b a.

(** [d.getTime() + n], again as a date ([NaN + n] is [NaN]). *)
Definition date_plus (d : Date) (n : Z) : Date :=
  match d with
  | Some t => new_Date (t + n)
  | None => None
  end.

(** The [start_date] of a request body, as JSON gives it: nothing that
    reads as a date (the field is absent, or a text that is no date), a
    number of milliseconds, a string of digits spelling a number from
    275761 on, or a date text such as "2024-01-20T12:00:00Z" with the time
    value it stands for. *)
Inductive RawDate :=
| raw_none
| raw_number (ms : Z)
| raw_digits (ms : Z) (large : (275761 <=? ms) = true)
| raw_text (t : Z).

(** [new Date(start_date)].  A string of digits from 275761 on is read as
    a year, which is past the last year a [Date] holds: Invalid Date. *)
Definition Date_of_raw (r : RawDate) : Date :=
  match r with
  | raw_none => None
  | raw_number ms => new_Date ms
  | raw_digits _ _ => None
  | raw_text t => new_Date t
  end.

(** Mongoose's cast of a value to the [Date] of a schema path, [None] when
    the cast fails.  A string that spells a number from 275761 on is read
    as that many milliseconds; any other value goes through [new Date]. *)
Definition castDate (r : RawDate) : Date :=
  match r with
  | raw_none => None
  | raw_number ms => new_Date ms
  | raw_digits ms _ => new_Date ms
  | raw_text t => new_Date t
  end.

(** ** Documents (models/models.js) *)

Record OptionDoc := {
  option_text : string;
  is_correct : bool
}.

Record QuestionDoc := {
  question_text : string;
  options : list OptionDoc;
  is_multiple_choice : bool
}.

Record QuizDoc := {
  q_id : ObjectId;
  quiz_name : string;
  class_id : ObjectId;
  start_date : Date;
  duration : Z;
  questions : list QuestionDoc
}.

(** An element of [quizzes], an array of [quizSchema] subdocuments: a quiz
    document, or the subdocument Mongoose makes of a bare id pushed into
    the array, which has its [_id] and nothing else. *)
Inductive QuizEntry :=
| entry_quiz (quiz : QuizDoc)
| entry_id (_id : ObjectId).

Record ClassDoc := {
  c_id : ObjectId;
  class_name : string;
  teacher_id : ObjectId;
  students : list ObjectId;
  quizzes : list QuizEntry
}.

(** A stored student: the four paths of [studentSchema], and whatever
    array-valued fields the raw document carries besides them. *)
Record StudentDoc := {
  s_id : ObjectId;
  username : string;
  password : string;
  full_name : string;
  email : string;
  arrays : gmap string (list ObjectId)
}.

(** A schema, as far as updates are concerned: the paths it declares and
    its [strict] option. *)
Record Schema := {
  paths : list string;
  strict : bool
}.

(** [studentSchema] declares four string paths and is built without
    options, so [strict] has its default, true. *)
Definition studentSchema : Schema :=
  {| paths := ["username"; "password"; "full_name"; "email"];
     strict := true |}.

(** The student's own list of classes, as the raw document has it. *)
Definition student_classes (s : StudentDoc) : list ObjectId :=
  default [] (arrays s !! "classes").

(** The payload of a verified token ([req.user]). *)
Record Principal := {
  id : ObjectId;
  role : string
}.

(** The body of a quiz request. *)
Record QuizBody := {
  b_quiz_name : string;
  b_start_date : RawDate;
  b_duration : Z;
  b_questions : list QuestionDoc
}.

(** ** Responses *)

Inductive Json :=
| J_error (error : string)
| J_message (message : string)
| J_message_quiz (message : string) (quiz : QuizDoc)
| J_quiz (quiz : QuizDoc).

Record Response := {
  status : nat;
  body : Json
}.

Definition json (j : Json) : Response := {| status := 200; body := j |}.
Definition status_json (st : nat) (j : Json) : Response :=
  {| status := st; body := j |}.

(** ** The world of a request *)

Inductive Error :=
| TypeError
| ValidationError
| MongoError
| JsonWebTokenError.

Record World := {
  Classes : gmap ObjectId ClassDoc;
  Students : gmap ObjectId StudentDoc;
  Quizzes : gmap ObjectId QuizDoc;
  console : list (string * Error)
}.

(** What a request finds around it: the clock, the id the driver hands to a
    new document, and whether the storage accepts each kind of write. *)
Record Env := {
  now : Z;
  new_ObjectId : ObjectId;
  quiz_write_ok : bool;
  class_write_ok : bool;
  student_write_ok : bool
}.

Inductive Outcome (A : Type) :=
| Next (a : A) (w : World)
| Return (r : Response) (w : World)
| Throw (e : Error) (w : World).
Arguments Next {A} a w.
Arguments Return {A} r w.
Arguments Throw {A} e w.

Definition Handler (A : Type) : Type := World -> Outcome A.

#[global] Instance Handler_ret : MRet Handler := fun A a w => Next a w.

#[global] Instance Handler_bind : MBind Handler := fun A B k m w =>
  match m w with
  | Next a w' => k a w'
  | Return r w' => Return r w'
  | Throw e w' => Throw e w'
  end.

(** [return res.status(st).json(j)] *)
Definition respond {A} (st : nat) (j : Json) : Handler A :=
  fun w => Return (status_json st j) w.

Definition throw {A} (e : Error) : Handler A := fun w => Throw e w.

(** [try { m } catch (error) { h error }] *)
Definition try_catch {A} (m : Handler A) (h : Error -> Handler A) : Handler A :=
  fun w =>
    match m w with
    | Throw e w' => h e w'
    | o => o
    end.

(** [console.error(prefix, error)] *)
Definition console_error (prefix : string) (e : Error) : Handler unit :=
  fun w => Next tt {| Classes := Classes w; Students := Students w;
                      Quizzes := Quizzes w;
                      console := console w ++ [(prefix, e)] |}.

(** Reading a property of [req.user]: a [TypeError] when it is undefined. *)
Definition deref (user : option Principal) : Handler Principal :=
  match user with
  | Some decoded => mret decoded
  | None => throw TypeError
  end.

(** The [async (req, res) => { try { ... } catch (error) { ... } }] around
    every route: the response the client gets and the world afterwards. *)
Definition route (h : Handler Response) (w : World) : Response * World :=
  match h w with
  | Next r w' => (r, w')
  | Return r w' => (r, w')
  | Throw JsonWebTokenError w' =>
      (status_json 401 (J_error "Invalid token"), w')
  | Throw e w' =>
      (status_json 500 (J_error "Internal Server Error"),
       {| Classes := Classes w'; Students := Students w';
          Quizzes := Quizzes w'; console := console w' ++ [("", e)] |})
  end.

(** ** The collections *)

Definition Class_findById (i : ObjectId) : Handler (option ClassDoc) :=
  fun w => Next (Classes w !! i) w.

Definition Student_findById (i : ObjectId) : Handler (option StudentDoc) :=
  fun w => Next (Students w !! i) w.

Definition Quiz_findById (i : ObjectId) : Handler (option QuizDoc) :=
  fun w => Next (Quizzes w !! i) w.

Definition set_Classes (m : gmap ObjectId ClassDoc) (w : World) : World :=
  {| Classes := m; Students := Students w; Quizzes := Quizzes w;
     console := console w |}.

Definition set_Students (m : gmap ObjectId StudentDoc) (w : World) : World :=
  {| Classes := Classes w; Students := m; Quizzes := Quizzes w;
     console := console w |}.

Definition set_Quizzes (m : gmap ObjectId QuizDoc) (w : World) : World :=
  {| Classes := Classes w; Students := Students w; Quizzes := m;
     console := console w |}.

(** The [required] validators of a schema of strings: a required string is
    present and not empty. *)
Definition required_string (s : string) : bool := negb (String.eqb s "").

Definition Option_valid (o : OptionDoc) : bool :=
  required_string (option_text o).

Definition Question_valid (q : QuestionDoc) : bool :=
  required_string (question_text q) && forallb Option_valid (options q).

(** [quizSchema]: [quiz_name], [class_id], [start_date] and [duration] are
    required, and every question is validated. *)
Definition Quiz_valid (q : QuizDoc) : bool :=
  required_string (quiz_name q)
  && match start_date q with Some _ => true | None => false end
  && forallb Question_valid (questions q).

(** [await quiz.validate()] *)
Definition Quiz_validate (q : QuizDoc) : Handler unit :=
  fun w => if Quiz_valid q then Next tt w else Throw ValidationError w.

(** [await quiz.save()] of a document made by [new Quiz]: validated, then
    inserted; an [_id] already in the collection is a duplicate key. *)
Definition Quiz_save_new (env : Env) (q : QuizDoc) : Handler unit :=
  fun w =>
    if negb (Quiz_valid q) then Throw ValidationError w
    else match Quizzes w !! q_id q with
         | Some _ => Throw MongoError w
         | None =>
             if quiz_write_ok env
             then Next tt (set_Quizzes (<[q_id q := q]> (Quizzes w)) w)
             else Throw MongoError w
         end.

(** [await quiz.save()] of a document that was fetched: validated, then
    written back under its [_id]. *)
Definition Quiz_save (env : Env) (q : QuizDoc) : Handler unit :=
  fun w =>
    if negb (Quiz_valid q) then Throw ValidationError w
    else if quiz_write_ok env
         then Next tt (set_Quizzes (<[q_id q := q]> (Quizzes w)) w)
         else Throw MongoError w.

(** The validators of an element of [quizzes]: those of [quizSchema], which
    a subdocument with nothing but its [_id] does not pass. *)
Definition QuizEntry_valid (e : QuizEntry) : bool :=
  match e with
  | entry_quiz quiz => Quiz_valid quiz
  | entry_id _ => false
  end.

(** [classSchema]: [class_name] and [teacher_id] are required, and every
    element of [quizzes] is validated. *)
Definition Class_valid (c : ClassDoc) : bool :=
  required_string (class_name c) && forallb QuizEntry_valid (quizzes c).

(** [await cls.save()] of a fetched class: validated, then written back
    under its [_id]. *)
Definition Class_save (env : Env) (c : ClassDoc) : Handler unit :=
  fun w =>
    if negb (Class_valid c) then Throw ValidationError w
    else if class_write_ok env
         then Next tt (set_Classes (<[c_id c := c]> (Classes w)) w)
         else Throw MongoError w.

(** ** Updates through the model *)

Inductive Update :=
| addToSet (path : string) (value : ObjectId).

(** [arr.includes(x)] on a Mongoose array of ids, which compares ids by
    value, be [x] an id or its string. *)
Definition includes (l : list ObjectId) (x : ObjectId) : bool :=
  existsb (N.eqb x) l.

(** [arr.push(x)] *)
Definition push (l : list ObjectId) (x : ObjectId) : list ObjectId :=
  l ++ [x].

(** [quizzes.push(id)]: the id becomes a subdocument of the array. *)
Definition push_id (l : list QuizEntry) (i : ObjectId) : list QuizEntry :=
  l ++ [entry_id i].

(** Mongoose casts an update against the schema of the model before it is
    sent: a path the schema does not declare is dropped from the update
    when the schema is strict. *)
Definition castUpdate (sch : Schema) (u : Update) : option Update :=
  match u with
  | addToSet path _ =>
      if existsb (String.eqb path) (paths sch) then Some u
      else if strict sch then None else Some u
  end.

(** [$addToSet] on the raw document: a declared path of these schemas is a
    string, which the server refuses; any other path is an array that
    receives the value unless it holds it. *)
Definition apply_update (sch : Schema) (u : Update) (s : StudentDoc)
  : option StudentDoc :=
  match u with
  | addToSet path v =>
      if existsb (String.eqb path) (paths sch) then None
      else
        let old := default [] (arrays s !! path) in
        let new := if includes old v then old else push old v in
        Some {| s_id := s_id s; username := username s;
                password := password s; full_name := full_name s;
                email := email s; arrays := <[path := new]> (arrays s) |}
  end.

(** [await Student.findByIdAndUpdate(i, u, { new: true })].  An update
    that casting has emptied is a plain find. *)
Definition Student_findByIdAndUpdate (sch : Schema) (env : Env)
    (i : ObjectId) (u : Update) : Handler (option StudentDoc) :=
  fun w =>
    match castUpdate sch u with
    | None => Next (Students w !! i) w
    | Some u' =>
        match Students w !! i with
        | None => Next None w
        | Some s =>
            match apply_update sch u' s with
            | None => Throw MongoError w
            | Some s' =>
                if student_write_ok env
                then Next (Some s') (set_Students (<[i := s']> (Students w)) w)
                else Throw MongoError w
            end
        end
    end.

(** ** The routes *)

Definition set_students (l : list ObjectId) (c : ClassDoc) : ClassDoc :=
  {| c_id := c_id c; class_name := class_name c; teacher_id := teacher_id c;
     students := l; quizzes := quizzes c |}.

Definition set_quizzes (l : list QuizEntry) (c : ClassDoc) : ClassDoc :=
  {| c_id := c_id c; class_name := class_name c; teacher_id := teacher_id c;
     students := students c; quizzes := l |}.

(** [POST /:classId/add-student] *)
Definition post_add_student (env : Env) (user : option Principal)
    (classId studentId : ObjectId) : Handler Response :=
  decoded ← deref user;
  if negb (role decoded =? "teacher")%string
  then respond 403 (J_error "User is not a teacher")
  else
    existingClass ← Class_findById classId;
    match existingClass with
    | None => respond 404 (J_error "Class not found")
    | Some existingClass =>
        let isTeacherOfClass := (teacher_id existingClass =? id decoded)%N in
        if negb isTeacherOfClass
        then respond 403 (J_error "User is not the teacher of this class")
        else
          student ← Student_findById studentId;
          match student with
          | None => respond 404 (J_error "Student not found")
          | Some student =>
              let existingClass :=
                set_students (push (students existingClass) (s_id student))
                             existingClass in
              Class_save env existingClass;;
              mret (json (J_message "Student added to the class successfully"))
          end
    end.

(** [POST /join], over the schema of the [Student] model. *)
Definition post_join_on (sch : Schema) (env : Env) (user : option Principal)
    (classId : ObjectId) : Handler Response :=
  decoded ← deref user;
  if negb (role decoded =? "student")%string
  then respond 403 (J_error "User is not a student")
  else
    existingClass ← Class_findById classId;
    student ← Student_findById (id decoded);
    match existingClass with
    | None => respond 404 (J_error "Class not found")
    | Some existingClass =>
        student ← (match student with
                   | Some s => mret s
                   | None => throw TypeError
                   end);
        if negb (includes (students existingClass) (s_id student))
        then
          let existingClass :=
            set_students (push (students existingClass) (s_id student))
                         existingClass in
          Class_save env existingClass;;
          Student_findByIdAndUpdate sch env (id decoded)
                                    (addToSet "classes" classId);;
          mret (json (J_message "Student joined the class successfully"))
        else
          mret (json (J_message "Student already in the class"))
    end.

Definition post_join : Env -> option Principal -> ObjectId -> Handler Response :=
  post_join_on studentSchema.

(** [new Quiz({ quiz_name, class_id: classId, start_date, duration,
    questions })], with the [_id] the driver generates; [start_date] is
    cast by the schema. *)
Definition new_Quiz (env : Env) (classId : ObjectId) (b : QuizBody) : QuizDoc :=
  {| q_id := new_ObjectId env;
     quiz_name := b_quiz_name b;
     class_id := classId;
     start_date := castDate (b_start_date b);
     duration := b_duration b;
     questions := b_questions b |}.

(** The four assignments of the update route; [start_date] is cast by the
    schema. *)
Definition assign_body (b : QuizBody) (q : QuizDoc) : QuizDoc :=
  {| q_id := q_id q;
     quiz_name := b_quiz_name b;
     class_id := class_id q;
     start_date := castDate (b_start_date b);
     duration := b_duration b;
     questions := b_questions b |}.

(** [POST /:classId/quizzes] *)
Definition post_quizzes (env : Env) (user : option Principal)
    (classId : ObjectId) (b : QuizBody) : Handler Response :=
  decoded ← deref user;
  if negb (role decoded =? "teacher")%string
  then respond 403 (J_error "User is not a teacher")
  else
    existingClass ← Class_findById classId;
    match existingClass with
    | None => respond 404 (J_error "Class not found")
    | Some existingClass =>
        let isTeacherOfClass := (teacher_id existingClass =? id decoded)%N in
        if negb isTeacherOfClass
        then respond 403 (J_error "User is not the teacher of this class")
        else
          let now := Some (now env) in
          let quizStartDate := Date_of_raw (b_start_date b) in
          if date_le quizStartDate now
          then respond 400 (J_error "Quiz start date must be in the future")
          else
            let newQuiz := new_Quiz env classId b in
            try_catch
              (Quiz_validate newQuiz;;
               Quiz_save_new env newQuiz;;
               let existingClass :=
                 set_quizzes (push_id (quizzes existingClass) (q_id newQuiz))
                             existingClass in
               Class_save env existingClass)
              (fun error => console_error "Error saving quiz:" error);;
            mret (json (J_message_quiz "Quiz created successfully" newQuiz))
    end.

(** [PATCH /:classId/quizzes/:quizId] *)
Definition patch_quiz (env : Env) (user : option Principal)
    (classId quizId : ObjectId) (b : QuizBody) : Handler Response :=
  decoded ← deref user;
  if negb (role decoded =? "teacher")%string
  then respond 403 (J_error "User is not a teacher")
  else
    existingClass ← Class_findById classId;
    match existingClass with
    | None => respond 404 (J_error "Class not found")
    | Some existingClass =>
        let isTeacherOfClass := (teacher_id existingClass =? id decoded)%N in
        if negb isTeacherOfClass
        then respond 403 (J_error "User is not the teacher of this class")
        else
          existingQuiz ← Quiz_findById quizId;
          match existingQuiz with
          | None => respond 404 (J_error "Quiz not found")
          | Some existingQuiz =>
              let now := Some (now env) in
              let quizStartDate := Date_of_raw (b_start_date b) in
              if date_le quizStartDate now
              then respond 400 (J_error "Quiz start date must be in the future")
              else
                let existingQuiz := assign_body b existingQuiz in
                Quiz_save env existingQuiz;;
                mret (json (J_message_quiz "Quiz updated successfully"
                                           existingQuiz))
          end
    end.

(** The time gate of the quiz read, for a student. *)
Definition student_gate (env : Env) (quiz : QuizDoc) : Handler unit :=
  let now := Some (now env) in
  let quizStartDate := start_date quiz in
  let quizEndDate := date_plus quizStartDate (duration quiz * 60000) in
  if date_lt now quizStartDate
  then respond 200 (J_message "Quiz has not started yet")
  else if date_gt now quizEndDate
       then respond 200 (J_message "Quiz has passed")
       else mret tt.

(** [GET /:classId/quizzes/:quizId] *)
Definition get_quiz (env : Env) (user : option Principal)
    (classId quizId : ObjectId) : Handler Response :=
  match user with
  | None =>
      respond 403 (J_error
        "Forbidden - Only authenticated users can access this endpoint")
  | Some decoded =>
      if negb (role decoded =? "teacher")%string
         && negb (role decoded =? "student")%string
      then respond 403 (J_error
        "Forbidden - Only authenticated users can access this endpoint")
      else
        myClass ← Class_findById classId;
        match myClass with
        | None => respond 404 (J_error "Class not found")
        | Some myClass =>
            let isTeacherOrStudentInClass :=
              (teacher_id myClass =? id decoded)%N
              || includes (students myClass) (id decoded) in
            if negb isTeacherOrStudentInClass
            then respond 403 (J_error
                   "User is not authorized to access this quiz")
            else
              quiz ← Quiz_findById quizId;
              match quiz with
              | None => respond 404 (J_error "Quiz not found")
              | Some quiz =>
                  (if (role decoded =? "student")%string
                   then student_gate env quiz
                   else mret tt);;
                  mret (json (J_quiz quiz))
              end
        end
  end.

(** ** The vocabulary of the specification, read off the responses *)

Definition NotTeacher : Response :=
  status_json 403 (J_error "User is not a teacher").
Definition NotOwner : Response :=
  status_json 403 (J_error "User is not the teacher of this class").
Definition ValidationFailed : Response :=
  status_json 400 (J_error "Quiz start date must be in the future").
Definition Internal : Response :=
  status_json 500 (J_error "Internal Server Error").
Definition Full (quiz : QuizDoc) : Response := json (J_quiz quiz).
Definition NotStarted : Response := json (J_message "Quiz has not started yet").
Definition Ended : Response := json (J_message "Quiz has passed").
Definition Joined : Response :=
  json (J_message "Student joined the class successfully").
Definition AlreadyMember : Response :=
  json (J_message "Student already in the class").
Definition Added : Response :=
  json (J_message "Student added to the class successfully").
Definition Created (quiz : QuizDoc) : Response :=
  json (J_message_quiz "Quiz created successfully" quiz).
Definition Updated (quiz : QuizDoc) : Response :=
  json (J_message_quiz "Quiz updated successfully" quiz).

(** How many times a student is listed in a class. *)
Definition memberships (c : ClassDoc) (s : ObjectId) : nat :=
  count_occ N.eq_dec (students c) s.

(** The [is_correct] flags of a quiz, question by question, and the flags
    a response carries to the client. *)
Definition correct_flags (q : QuizDoc) : list (list bool) :=
  map (fun question => map is_correct (options question)) (questions q).

Definition exposed_flags (r : Response) : option (list (list bool)) :=
  match body r with
  | J_quiz q => Some (correct_flags q)
  | J_message_quiz _ q => Some (correct_flags q)
  | _ => None
  end.

(** A quiz document filed under another class. *)
Definition with_class_id (cid : ObjectId) (q : QuizDoc) : QuizDoc :=
  {| q_id := q_id q; quiz_name := quiz_name q; class_id := cid;
     start_date := start_date q; duration := duration q;
     questions := questions q |}.

(** ** Sample data

    One class (id 1) of teacher 10 with student 20 enrolled, a second class
    (id 2) of teacher 11, and two quizzes: quiz 5 of class 1, starting on
    2024-01-20T12:00:00Z for 60 minutes, and quiz 7 of class 2. *)

Definition sample_start : Z := 1705752000000.

Definition sample_questions : list QuestionDoc :=
  [ {| question_text := "2 + 2 = ?";
       options := [ {| option_text := "3"; is_correct := false |};
                    {| option_text := "4"; is_correct := true |} ];
       is_multiple_choice := false |} ].

Definition sample_quiz : QuizDoc :=
  {| q_id := 5%N; quiz_name := "Math Quiz"; class_id := 1%N;
     start_date := Some sample_start; duration := 60;
     questions := sample_questions |}.

Definition other_quiz : QuizDoc :=
  {| q_id := 7%N; quiz_name := "History Quiz"; class_id := 2%N;
     start_date := Some sample_start; duration := 30;
     questions := [] |}.

Definition sample_class : ClassDoc :=
  {| c_id := 1%N; class_name := "Math"; teacher_id := 10%N;
     students := [20%N]; quizzes := [] |}.

Definition other_class : ClassDoc :=
  {| c_id := 2%N; class_name := "History"; teacher_id := 11%N;
     students := []; quizzes := [] |}.

Definition sample_student : StudentDoc :=
  {| s_id := 20%N; username := "sam"; password := "$2b$10$hash";
     full_name := "Sam Student"; email := "sam@example.com";
     arrays := ∅ |}.

Definition new_student : StudentDoc :=
  {| s_id := 21%N; username := "noa"; password := "$2b$10$hash";
     full_name := "Noa Newcomer"; email := "noa@example.com";
     arrays := ∅ |}.

Definition sample_world : World :=
  {| Classes := {[ 1%N := sample_class; 2%N := other_class ]};
     Students := {[ 20%N := sample_student; 21%N := new_student ]};
     Quizzes := {[ 5%N := sample_quiz; 7%N := other_quiz ]};
     console := [] |}.

Definition the_teacher : Principal := {| id := 10%N; role := "teacher" |}.
Definition another_teacher : Principal := {| id := 11%N; role := "teacher" |}.
Definition the_student : Principal := {| id := 20%N; role := "student" |}.
Definition the_newcomer : Principal := {| id := 21%N; role := "student" |}.

(** A request at time [t] on storage that accepts every write. *)
Definition env_at (t : Z) : Env :=
  {| now := t; new_ObjectId := 9%N; quiz_write_ok := true;
     class_write_ok := true; student_write_ok := true |}.

(** A request at time [t] on storage that refuses to write quizzes. *)
Definition env_quiz_down (t : Z) : Env :=
  {| now := t; new_ObjectId := 9%N; quiz_write_ok := false;
     class_write_ok := true; student_write_ok := true |}.

Definition sample_body (start : RawDate) : QuizBody :=
  {| b_quiz_name := "Algebra"; b_start_date := start; b_duration := 45;
     b_questions := sample_questions |}.

(** ** The other routes of the router, and the token check in front of them

    The teachers are only ever read by this code, so their collection is an
    argument of what reads it rather than a part of the [World].  A listing
    comes back in the order of the collection; nothing below relies on it.
    [console] holds what [console.error] prints; [console.log] is left
    out. *)

Record TeacherDoc := {
  t_id : ObjectId;
  t_username : string;
  t_password : string;
  t_full_name : string;
  t_email : string
}.

(** [{ id, name, email, username }] of the student listing. *)
Module Info.
Record t := {
  id : ObjectId;
  name : string;
  email : string;
  username : string
}.
End Info.

(** [{ quiz_name, quiz_id, start_date, duration }] of the quiz listing. *)
Module Summary.
Record t := {
  quiz_name : string;
  quiz_id : ObjectId;
  start_date : Date;
  duration : Z
}.
End Summary.

(** [teacher.toObject()] after [delete teacherobj["password"]], and the
    [{ classObject, teacher }] of the class listing. *)
Module Entry.
Record teacherobj := {
  _id : ObjectId;
  username : string;
  full_name : string;
  email : string
}.
Record t := {
  classObject : ClassDoc;
  teacher : teacherobj
}.
End Entry.

(** What the client gets from a route whose last statement is
    [res.json({ ... })] around a value of [A]: an earlier response, or that
    value with status 200. *)
Definition Reply (A : Type) : Type := Response + A.

(** The [try]/[catch] of a route, as [route], for such a handler. *)
Definition serve {A} (h : Handler A) (w : World) : Reply A * World :=
  match h w with
  | Next a w' => (inr a, w')
  | Return r w' => (inl r, w')
  | Throw JsonWebTokenError w' =>
      (inl (status_json 401 (J_error "Invalid token")), w')
  | Throw e w' =>
      (inl (status_json 500 (J_error "Internal Server Error")),
       {| Classes := Classes w'; Students := Students w';
          Quizzes := Quizzes w'; console := console w' ++ [("", e)] |})
  end.

(** [await Promise.all(l.map(async (x) => f x))] *)
Fixpoint for_each {A B} (f : A -> Handler B) (l : list A) : Handler (list B) :=
  match l with
  | [] => mret []
  | x :: l' => y ← f x; ys ← for_each f l'; mret (y :: ys)
  end.

(** [await Class.find(...)] and [await Quiz.find(...)], the condition as a
    test on the document. *)
Definition Class_find (cond : ClassDoc -> bool) : Handler (list ClassDoc) :=
  fun w => Next (List.filter cond (map snd (map_to_list (Classes w)))) w.

Definition Quiz_find (cond : QuizDoc -> bool) : Handler (list QuizDoc) :=
  fun w => Next (List.filter cond (map snd (map_to_list (Quizzes w)))) w.

Definition Teacher_findById (Teachers : gmap ObjectId TeacherDoc)
    (i : ObjectId) : Handler (option TeacherDoc) :=
  fun w => Next (Teachers !! i) w.

(** [new Class({ class_name, teacher_id: decoded.id })] *)
Definition new_Class (env : Env) (name : string) (teacher : ObjectId)
  : ClassDoc :=
  {| c_id := new_ObjectId env; class_name := name; teacher_id := teacher;
     students := []; quizzes := [] |}.

(** [await newClass.save()]: [class_name] is required; then the insertion,
    as for a new quiz. *)
Definition Class_save_new (env : Env) (c : ClassDoc) : Handler unit :=
  fun w =>
    if negb (required_string (class_name c)) then Throw ValidationError w
    else match Classes w !! c_id c with
         | Some _ => Throw MongoError w
         | None =>
             if class_write_ok env
             then Next tt (set_Classes (<[c_id c := c]> (Classes w)) w)
             else Throw MongoError w
         end.

(** [POST /create]; the value is the [message] and the [class] sent. *)
Definition post_create (env : Env) (user : option Principal)
    (class_name : string) : Handler (string * ClassDoc) :=
  decoded ← deref user;
  if negb (role decoded =? "teacher")%string
  then respond 403 (J_error "User is not a teacher")
  else
    let newClass := new_Class env class_name (id decoded) in
    Class_save_new env newClass;;
    mret ("Class created successfully", newClass).

(** The object the student listing makes of a student. *)
Definition student_info (student : StudentDoc) : Info.t :=
  {| Info.id := s_id student; Info.name := full_name student;
     Info.email := email student; Info.username := username student |}.

(** [GET /:classId/students]; the value is the [students] sent. *)
Definition get_students (user : option Principal) (classId : ObjectId)
  : Handler (list Info.t) :=
  match user with
  | None =>
      respond 403 (J_error
        "Forbidden - Only authenticated users can access this endpoint")
  | Some decoded =>
      if negb (role decoded =? "teacher")%string
         && negb (role decoded =? "student")%string
      then respond 403 (J_error
        "Forbidden - Only authenticated users can access this endpoint")
      else
        myClass ← Class_findById classId;
        match myClass with
        | None => respond 404 (J_error "Class not found")
        | Some myClass =>
            for_each
              (fun studentId =>
                 student ← Student_findById studentId;
                 match student with
                 | Some student => mret (student_info student)
                 | None => throw TypeError
                 end)
              (students myClass)
        end
  end.

(** The object the quiz listing makes of a quiz. *)
Definition quiz_summary (quiz : QuizDoc) : Summary.t :=
  {| Summary.quiz_name := quiz_name quiz; Summary.quiz_id := q_id quiz;
     Summary.start_date := start_date quiz;
     Summary.duration := duration quiz |}.

(** [GET /:classId/quizzes]; the value is the [quizzes] sent. *)
Definition get_quizzes (user : option Principal) (classId : ObjectId)
  : Handler (list Summary.t) :=
  match user with
  | None =>
      respond 403 (J_error
        "Forbidden - Only authenticated users can access this endpoint")
  | Some decoded =>
      if negb (role decoded =? "teacher")%string
         && negb (role decoded =? "student")%string
      then respond 403 (J_error
        "Forbidden - Only authenticated users can access this endpoint")
      else
        myClass ← Class_findById classId;
        match myClass with
        | None => respond 404 (J_error "Class not found")
        | Some myClass =>
            let isTeacherOrStudentInClass :=
              (teacher_id myClass =? id decoded)%N
              || includes (students myClass) (id decoded) in
            if negb isTeacherOrStudentInClass
            then respond 403 (J_error
                   "User is not authorized to access quizzes in this class")
            else
              quizzes ← Quiz_find (fun quiz => (class_id quiz =? classId)%N);
              mret (map quiz_summary quizzes)
        end
  end.

(** The object the class listing makes of the teacher of a class. *)
Definition teacher_object (teacher : TeacherDoc) : Entry.teacherobj :=
  {| Entry._id := t_id teacher; Entry.username := t_username teacher;
     Entry.full_name := t_full_name teacher; Entry.email := t_email teacher |}.

(** [GET /]; the value is the [classes] sent.  For a role that is neither
    of the two, [classes] stays undefined and [classes.map] throws.  The
    student's query, [{ students: { $in: user.id } }], selects the classes
    whose [students] hold the id. *)
Definition get_classes (Teachers : gmap ObjectId TeacherDoc)
    (user : option Principal) : Handler (list Entry.t) :=
  match user with
  | None => respond 404 (J_error "User not found")
  | Some user =>
      classes ← (if (role user =? "teacher")%string
                 then classes ← Class_find
                                  (fun c => (teacher_id c =? id user)%N);
                      mret (Some classes)
                 else if (role user =? "student")%string
                      then classes ← Class_find
                                       (fun c => includes (students c) (id user));
                           mret (Some classes)
                      else mret None);
      match classes with
      | None => throw TypeError
      | Some classes =>
          for_each
            (fun cls =>
               teacher ← Teacher_findById Teachers (teacher_id cls);
               match teacher with
               | Some teacher =>
                   mret {| Entry.classObject := cls;
                           Entry.teacher := teacher_object teacher |}
               | None => throw TypeError
               end)
            classes
      end
  end.

(** [s.split(sep)] for a separator of one character. *)
Fixpoint split (sep : Ascii.ascii) (s : string) : list string :=
  match s with
  | EmptyString => [EmptyString]
  | String ch s' =>
      if Ascii.eqb ch sep then EmptyString :: split sep s'
      else match split sep s' with
           | part :: parts => String ch part :: parts
           | [] => [String ch EmptyString]
           end
  end.

(** [authenticateToken], over [jwt.verify(token, process.env.JWT_SECRET)]
    taken as the function [verify], which gives the payload or throws.  The
    value is the [req.user] with which [next()] is called. *)
Definition authenticateToken (verify : string -> Error + Principal)
    (Teachers : gmap ObjectId TeacherDoc) (authorization : option string)
  : Handler Principal :=
  header ← (match authorization with
            | Some header => mret header
            | None => throw TypeError
            end);
  let token := split Ascii.Space header !! 1%nat in
  match token with
  | None | Some EmptyString =>
      respond 401 (J_error "Authentication token missing")
  | Some token =>
      decoded ← (match verify token with
                 | inr decoded => mret decoded
                 | inl error => throw error
                 end);
      user ← (if (role decoded =? "teacher")%string
              then teacher ← Teacher_findById Teachers (id decoded);
                   mret (inl <$> teacher)
              else if (role decoded =? "student")%string
                   then student ← Student_findById (id decoded);
                        mret (inr <$> student)
                   else mret None);
      match user : option (TeacherDoc + StudentDoc) with
      | None => respond 404 (J_error "User not found")
      | Some _ => mret decoded
      end
  end.

(** ** Properties the collections may have *)

(** Every document is filed under its own [_id]. *)
Definition keyed (w : World) : Prop :=
  map_Forall (fun i c => c_id c = i) (Classes w)
  /\ map_Forall (fun i q => q_id q = i) (Quizzes w).

(** No class lists a student twice. *)
Definition no_duplicates (w : World) : Prop :=
  map_Forall (fun _ c => NoDup (students c)) (Classes w).

(** The samples of the other routes. *)
Definition sample_teachers : gmap ObjectId TeacherDoc :=
  {[ 10%N := {| t_id := 10%N; t_username := "tess";
                t_password := "$2b$10$hash"; t_full_name := "Tess Teacher";
                t_email := "tess@example.com" |};
     11%N := {| t_id := 11%N; t_username := "theo";
                t_password := "$2b$10$hash"; t_full_name := "Theo Teacher";
                t_email := "theo@example.com" |} ]}.

(** A [jwt.verify] that knows three tokens and rejects the rest. *)
Definition sample_verify (token : string) : Error + Principal :=
  if (token =? "token-of-tess")%string then inr the_teacher
  else if (token =? "token-of-sam")%string then inr the_student
  else if (token =? "token-of-nobody")%string
       then inr {| id := 99%N; role := "student" |}
       else inl JsonWebTokenError.

(** The other responses, and the world after the [console.error(error)] of
    the outer [catch]. *)
Definition ClassNotFound : Response :=
  status_json 404 (J_error "Class not found").
Definition StudentNotFound : Response :=
  status_json 404 (J_error "Student not found").
Definition QuizNotFound : Response :=
  status_json 404 (J_error "Quiz not found").
Definition UserNotFound : Response :=
  status_json 404 (J_error "User not found").
Definition NotStudent : Response :=
  status_json 403 (J_error "User is not a student").
Definition Forbidden : Response :=
  status_json 403 (J_error
    "Forbidden - Only authenticated users can access this endpoint").
Definition NotAuthorizedQuiz : Response :=
  status_json 403 (J_error "User is not authorized to access this quiz").
Definition NotAuthorizedQuizzes : Response :=
  status_json 403
    (J_error "User is not authorized to access quizzes in this class").
Definition TokenMissing : Response :=
  status_json 401 (J_error "Authentication token missing").
Definition InvalidToken : Response :=
  status_json 401 (J_error "Invalid token").

Definition logged (e : Error) (w : World) : World :=
  {| Classes := Classes w; Students := Students w; Quizzes := Quizzes w;
     console := console w ++ [("", e)] |}.

(** [w'] keeps what [w] has: the same students and quizzes, no class more,
    and every class with its teacher, name and quizzes and with its list of
    students continued by at most one id. *)
Definition membership_extended (w w' : World) : Prop :=
  Students w' = Students w
  /\ Quizzes w' = Quizzes w
  /\ (forall i, Classes w !! i = None -> Classes w' !! i = None)
  /\ (forall i c, Classes w !! i = Some c ->
        exists c', Classes w' !! i = Some c'
                   /\ c_id c' = c_id c
                   /\ teacher_id c' = teacher_id c
                   /\ class_name c' = class_name c
                   /\ quizzes c' = quizzes c
                   /\ students c `prefix_of` students c'
                   /\ (length (students c') <= S (length (students c)))%nat).

(** The entry of the class listing for a class, when its teacher is there;
    and the condition by which the listing selects the classes of a user. *)
Definition class_entry (Teachers : gmap ObjectId TeacherDoc) (cls : ClassDoc)
  : option Entry.t :=
  match Teachers !! teacher_id cls with
  | Some teacher => Some {| Entry.classObject := cls;
                            Entry.teacher := teacher_object teacher |}
  | None => None
  end.

Definition listed_for (user : Principal) (c : ClassDoc) : bool :=
  if (role user =? "teacher")%string then (teacher_id c =? id user)%N
  else includes (students c) (id user).

(** A world with a class whose teacher (12) and one of whose students (77)
    have no document. *)
Definition orphan_class : ClassDoc :=
  {| c_id := 3%N; class_name := "Art"; teacher_id := 12%N;
     students := [20%N; 77%N]; quizzes := [] |}.

Definition orphan_world : World :=
  set_Classes (<[3%N := orphan_class]> (Classes sample_world)) sample_world.

Definition absent_teacher : Principal := {| id := 12%N; role := "teacher" |}.
Definition the_janitor : Principal := {| id := 30%N; role := "janitor" |}.

(** * Properties *)

(** ** Running a handler *)

Ltac run :=
  unfold route, post_quizzes, patch_quiz, get_quiz, post_join, post_join_on,
    post_add_student, student_gate, try_catch, deref, respond, throw,
    Class_findById, Student_findById, Quiz_findById,
    Quiz_validate, Quiz_save_new, Quiz_save, Class_save,
    Student_findByIdAndUpdate, console_error,
    mbind, Handler_bind, mret, Handler_ret;
  cbn beta iota.

Lemma role_is (p : Principal) (r : string) :
  role p = r -> (role p =? r)%string = true.
Proof. intros ->. apply String.eqb_refl. Qed.

Lemma role_is_not (p : Principal) (r : string) :
  role p <> r -> (role p =? r)%string = false.
Proof. intros H. now apply String.eqb_neq. Qed.

Lemma includes_In (l : list ObjectId) (x : ObjectId) :
  includes l x = true <-> In x l.
Proof.
  unfold includes. rewrite existsb_exists. split.
  - intros (y & Hy & He). apply N.eqb_eq in He. now subst.
  - intros H. exists x. split; [assumption | apply N.eqb_refl].
Qed.

Lemma includes_push (l : list ObjectId) (x : ObjectId) :
  includes (push l x) x = true.
Proof. apply includes_In. unfold push. apply in_or_app. right. now left. Qed.

Lemma not_includes_count (l : list ObjectId) (x : ObjectId) :
  includes l x = false -> count_occ N.eq_dec l x = 0%nat.
Proof.
  intros H. apply count_occ_not_In. intros Hin.
  apply includes_In in Hin. congruence.
Qed.

Lemma count_push (l : list ObjectId) (x : ObjectId) :
  count_occ N.eq_dec (push l x) x = S (count_occ N.eq_dec l x).
Proof.
  unfold push. rewrite count_occ_app. simpl.
  destruct (N.eq_dec x x); [lia | contradiction].
Qed.

Arguments Class_valid : simpl never.

(** A class into whose [quizzes] a bare id was pushed does not validate;
    a change of [students] does not bear on the validation. *)
Lemma Class_valid_push_id (c : ClassDoc) (i : ObjectId) :
  Class_valid (set_quizzes (push_id (quizzes c) i) c) = false.
Proof.
  unfold Class_valid, push_id. simpl. rewrite forallb_app. simpl.
  now rewrite !andb_false_r.
Qed.

Lemma Class_valid_set_students (l : list ObjectId) (c : ClassDoc) :
  Class_valid (set_students l c) = Class_valid c.
Proof. reflexivity. Qed.

(** What both readings make of a [start_date] that [Date] reads. *)
Lemma castDate_of_Date (r : RawDate) (t : Z) :
  Date_of_raw r = Some t -> castDate r = Some t.
Proof. destruct r; simpl; congruence. Qed.

(** ** Ownership *)

(** C4. Creating a quiz passes the authorization exactly for a teacher who
    owns the target class: any other role gets 403 "User is not a teacher",
    a teacher who is not the [teacher_id] of the class gets 403 "User is
    not the teacher of this class" whatever else the collections hold, and
    in both cases the world is left as it was. *)
Theorem post_quizzes_authorization
    (env : Env) (p : Principal) (classId : ObjectId) (b : QuizBody) (w : World) :
  (role p <> "teacher" ->
     route (post_quizzes env (Some p) classId b) w = (NotTeacher, w))
  /\ (forall c, Classes w !! classId = Some c ->
        role p = "teacher" -> teacher_id c <> id p ->
        route (post_quizzes env (Some p) classId b) w = (NotOwner, w))
  /\ (forall c, Classes w !! classId = Some c ->
        (status (fst (route (post_quizzes env (Some p) classId b) w)) = 403%nat
         <-> ~ (role p = "teacher" /\ teacher_id c = id p))).
Proof.
  split; [|split].
  - intros Hr. run. rewrite (role_is_not _ _ Hr). reflexivity.
  - intros c Hc Hr Ho. run. rewrite (role_is _ _ Hr). simpl. rewrite Hc.
    apply N.eqb_neq in Ho. rewrite Ho. reflexivity.
  - intros c Hc. run.
    destruct (String.eqb_spec (role p) "teacher") as [Hr|Hr]; simpl.
    2:{ split; [intros _ [? _]; contradiction | reflexivity]. }
    rewrite Hc.
    destruct (N.eqb_spec (teacher_id c) (id p)) as [Ho|Ho]; simpl.
    2:{ split; [intros _ [_ ?]; contradiction | reflexivity]. }
    split; [|intros []; split; assumption].
    destruct (date_le _ _); simpl; [discriminate|].
    destruct (Quiz_valid _); simpl; [|discriminate].
    destruct (Quizzes w !! _); simpl; [discriminate|].
    destruct (quiz_write_ok env); simpl; [|discriminate].
    rewrite Class_valid_push_id. simpl. discriminate.
Qed.

(** ** The start date of a quiz *)

(** What the test does for a [start_date] that [Date] reads: on creation, a
    start at or before [now] is answered 400 with the world untouched, and
    a start strictly after [now] is answered "Quiz created successfully". *)
Lemma start_date_test_on_creation
    (env : Env) (p : Principal) (classId : ObjectId) (b : QuizBody)
    (w : World) (c : ClassDoc) (t : Z) :
  role p = "teacher" ->
  Classes w !! classId = Some c ->
  teacher_id c = id p ->
  Date_of_raw (b_start_date b) = Some t ->
  (t <= now env ->
     route (post_quizzes env (Some p) classId b) w = (ValidationFailed, w))
  /\ (now env < t ->
      fst (route (post_quizzes env (Some p) classId b) w)
      = Created (new_Quiz env classId b)).
Proof.
  intros Hr Hc Ho Hb.
  assert (Hown : (teacher_id c =? id p)%N = true) by now apply N.eqb_eq.
  split; intros Ht; run; rewrite (role_is _ _ Hr); simpl;
    rewrite Hc, Hown; simpl; rewrite Hb; simpl.
  - assert ((t <=? now env) = true) as -> by now apply Z.leb_le. reflexivity.
  - assert ((t <=? now env) = false) as -> by (apply Z.leb_gt; lia).
    destruct (Quiz_valid _); simpl; [|reflexivity].
    destruct (Quizzes w !! new_ObjectId env); simpl; [reflexivity|].
    destruct (quiz_write_ok env); simpl; [|reflexivity].
    rewrite Class_valid_push_id. reflexivity.
Qed.

(** The same on update, whatever the stored quiz is: 400 with the world
    untouched, or on to the save of the quiz. *)
Lemma start_date_test_on_update
    (env : Env) (p : Principal) (classId quizId : ObjectId) (b : QuizBody)
    (w : World) (c : ClassDoc) (q : QuizDoc) (t : Z) :
  role p = "teacher" ->
  Classes w !! classId = Some c ->
  teacher_id c = id p ->
  Quizzes w !! quizId = Some q ->
  Date_of_raw (b_start_date b) = Some t ->
  (t <= now env ->
     route (patch_quiz env (Some p) classId quizId b) w
     = (ValidationFailed, w))
  /\ (now env < t ->
      fst (route (patch_quiz env (Some p) classId quizId b) w)
      = (if Quiz_valid (assign_body b q) && quiz_write_ok env
         then Updated (assign_body b q) else Internal)).
Proof.
  intros Hr Hc Ho Hq Hb.
  assert (Hown : (teacher_id c =? id p)%N = true) by now apply N.eqb_eq.
  split; intros Ht; run; rewrite (role_is _ _ Hr); simpl;
    rewrite Hc, Hown; simpl; rewrite Hq, Hb; simpl.
  - assert ((t <=? now env) = true) as -> by now apply Z.leb_le. reflexivity.
  - assert ((t <=? now env) = false) as -> by (apply Z.leb_gt; lia).
    destruct (Quiz_valid _); simpl; [|reflexivity].
    destruct (quiz_write_ok env); reflexivity.
Qed.

(** C5, as the code has it.  The test reads [new Date(start_date)], the
    quiz stores Mongoose's cast of [start_date], and the two part on a
    string of digits: [Date] makes nothing of it, so the test lets it
    through, and Mongoose reads it as milliseconds.  A start sent in that
    form is therefore never refused, however far in the past it lies: the
    owner's creation answers "Quiz created successfully" and the owner's
    update "Quiz updated successfully", and the quiz is stored with that
    start. *)
Theorem start_date_in_digits_is_not_tested
    (env : Env) (p : Principal) (classId : ObjectId) (b : QuizBody)
    (w : World) (c : ClassDoc) (ms : Z) (large : (275761 <=? ms) = true) :
  role p = "teacher" ->
  Classes w !! classId = Some c ->
  teacher_id c = id p ->
  b_start_date b = raw_digits ms large ->
  ms <= now env ->
  quiz_write_ok env = true ->
  (Quiz_valid (new_Quiz env classId b) = true ->
   Quizzes w !! new_ObjectId env = None ->
   let r := route (post_quizzes env (Some p) classId b) w in
   fst r = Created (new_Quiz env classId b)
   /\ fst r <> ValidationFailed
   /\ Quizzes (snd r) !! new_ObjectId env = Some (new_Quiz env classId b)
   /\ start_date (new_Quiz env classId b) = Some ms)
  /\ (forall quizId q,
        Quizzes w !! quizId = Some q ->
        Quiz_valid (assign_body b q) = true ->
        let r := route (patch_quiz env (Some p) classId quizId b) w in
        fst r = Updated (assign_body b q)
        /\ fst r <> ValidationFailed
        /\ Quizzes (snd r) !! q_id q = Some (assign_body b q)
        /\ start_date (assign_body b q) = Some ms).
Proof.
  intros Hr Hc Ho Hb Hpast Hw.
  assert (Hown : (teacher_id c =? id p)%N = true) by now apply N.eqb_eq.
  assert (Hstart : forall q, Quiz_valid q = true ->
            start_date q = castDate (b_start_date b) ->
            new_Date ms = Some ms).
  { intros q Hv Hs. unfold Quiz_valid in Hv. rewrite Hs, Hb in Hv.
    simpl in Hv. unfold new_Date in *.
    destruct (Z.abs ms <=? maxTime); [reflexivity|].
    rewrite andb_false_r in Hv. discriminate. }
  assert (HD : Date_of_raw (b_start_date b) = None) by now rewrite Hb.
  split.
  - intros Hv Hfree. pose proof (Hstart _ Hv eq_refl) as Hms.
    cbv zeta. run. rewrite (role_is _ _ Hr). simpl.
    rewrite Hc, Hown. simpl. rewrite HD. simpl. rewrite Hv. simpl.
    rewrite Hfree, Hw. simpl. rewrite Class_valid_push_id. simpl.
    split; [reflexivity|]. split; [discriminate|].
    split; [apply lookup_insert_eq | now rewrite Hb].
  - intros quizId q Hq Hv. pose proof (Hstart _ Hv eq_refl) as Hms.
    cbv zeta. run. rewrite (role_is _ _ Hr). simpl.
    rewrite Hc, Hown. simpl. rewrite Hq, HD. simpl. rewrite Hv. simpl.
    rewrite Hw. simpl.
    split; [reflexivity|]. split; [discriminate|].
    split; [apply lookup_insert_eq | now rewrite Hb].
Qed.

(** ** Errors while saving a new quiz *)

(** C3. Once the owner's request has passed the date check, whatever goes
    wrong inside the [try] that validates and saves the quiz and pushes it
    into the class is caught and written to the console, and the response
    is still "Quiz created successfully" with the new quiz, never the 500
    of the outer handler.  Something always goes wrong there: a quiz that
    does not validate or is not written leaves the [Quiz] collection as it
    was, and a quiz that is written is followed by the save of the class,
    which the id pushed into [quizzes] makes fail its validation.  The
    class is never written. *)
Theorem post_quizzes_swallows_save_errors
    (env : Env) (p : Principal) (classId : ObjectId) (b : QuizBody)
    (w : World) (c : ClassDoc) :
  role p = "teacher" ->
  Classes w !! classId = Some c ->
  teacher_id c = id p ->
  date_le (Date_of_raw (b_start_date b)) (Some (now env)) = false ->
  let newQuiz := new_Quiz env classId b in
  let r := fst (route (post_quizzes env (Some p) classId b) w) in
  let w' := snd (route (post_quizzes env (Some p) classId b) w) in
  r = Created newQuiz
  /\ r <> Internal
  /\ Classes w' = Classes w
  /\ (Quiz_valid newQuiz = false ->
      Quizzes w' = Quizzes w
      /\ console w'
         = (console w ++ [("Error saving quiz:", ValidationError)])%list)
  /\ (Quiz_valid newQuiz = true ->
      quiz_write_ok env = false \/ is_Some (Quizzes w !! q_id newQuiz) ->
      Quizzes w' = Quizzes w
      /\ console w' = (console w ++ [("Error saving quiz:", MongoError)])%list)
  /\ (Quiz_valid newQuiz = true -> quiz_write_ok env = true ->
      Quizzes w !! q_id newQuiz = None ->
      Quizzes w' = <[q_id newQuiz := newQuiz]> (Quizzes w)
      /\ console w'
         = (console w ++ [("Error saving quiz:", ValidationError)])%list).
Proof.
  intros Hr Hc Ho Hle.
  assert (Hown : (teacher_id c =? id p)%N = true) by now apply N.eqb_eq.
  cbv zeta. run. rewrite (role_is _ _ Hr). simpl. rewrite Hc, Hown. simpl.
  rewrite Hle.
  destruct (Quiz_valid (new_Quiz env classId b)) eqn:Hv; simpl.
  2:{ repeat split; try discriminate. }
  destruct (Quizzes w !! new_ObjectId env) eqn:Hq; simpl.
  { repeat split; try discriminate. }
  destruct (quiz_write_ok env) eqn:Hqw; simpl.
  2:{ repeat split; try discriminate. }
  rewrite Class_valid_push_id. simpl.
  split; [reflexivity|]. split; [discriminate|]. split; [reflexivity|].
  split; [discriminate|]. split; [|by intros].
  intros _ [H|[x H]]; discriminate.
Qed.

(** An instance of the above: a [start_date] that reads as no date compares
    false with [now], passes the check, fails the validation of the quiz,
    and the answer is "Quiz created successfully" with nothing stored. *)
Lemma post_quizzes_invalid_start_date
    (env : Env) (p : Principal) (classId : ObjectId) (b : QuizBody)
    (w : World) (c : ClassDoc) :
  role p = "teacher" ->
  Classes w !! classId = Some c ->
  teacher_id c = id p ->
  b_start_date b = raw_none ->
  fst (route (post_quizzes env (Some p) classId b) w)
    = Created (new_Quiz env classId b)
  /\ Quizzes (snd (route (post_quizzes env (Some p) classId b) w))
     = Quizzes w.
Proof.
  intros Hr Hc Ho Hb. run. rewrite Hr. simpl. rewrite Hc.
  apply N.eqb_eq in Ho. rewrite Ho. simpl.
  assert (Hv : Quiz_valid (new_Quiz env classId b) = false).
  { unfold Quiz_valid. simpl. rewrite Hb. simpl. now rewrite andb_false_r. }
  rewrite Hb. simpl. rewrite Hv. simpl. split; reflexivity.
Qed.

(** ** Reading a quiz *)

Arguments date_lt : simpl never.
Arguments date_gt : simpl never.
Arguments date_le : simpl never.
Arguments date_plus : simpl never.

(** What a student enrolled in the class gets from the quiz read. *)
Lemma get_quiz_student
    (env : Env) (p : Principal) (classId quizId : ObjectId) (w : World)
    (c : ClassDoc) (q : QuizDoc) :
  role p = "student" ->
  Classes w !! classId = Some c ->
  includes (students c) (id p) = true ->
  Quizzes w !! quizId = Some q ->
  route (get_quiz env (Some p) classId quizId) w
  = (if date_lt (Some (now env)) (start_date q) then NotStarted
     else if date_gt (Some (now env))
                     (date_plus (start_date q) (duration q * 60000))
          then Ended else Full q,
     w).
Proof.
  intros Hr Hc Hin Hq. run. rewrite Hr. simpl. rewrite Hc, Hin.
  rewrite orb_true_r. simpl. rewrite Hq.
  destruct (date_lt (Some (now env)) (start_date q)); [reflexivity|].
  destruct (date_gt (Some (now env)) _); reflexivity.
Qed.

(** What a teacher who owns the class gets from the quiz read. *)
Lemma get_quiz_teacher
    (env : Env) (p : Principal) (classId quizId : ObjectId) (w : World)
    (c : ClassDoc) (q : QuizDoc) :
  role p = "teacher" ->
  Classes w !! classId = Some c ->
  teacher_id c = id p ->
  Quizzes w !! quizId = Some q ->
  route (get_quiz env (Some p) classId quizId) w = (Full q, w).
Proof.
  intros Hr Hc Ho Hq. run. rewrite Hr. simpl. rewrite Hc.
  apply N.eqb_eq in Ho. rewrite Ho. simpl. rewrite Hq. reflexivity.
Qed.

(** C6. The teacher who owns the class gets the whole quiz from the quiz
    read at every instant, whatever the window of the quiz is: the answer
    is the same under any clock. *)
Theorem owner_reads_full_quiz_at_any_time
    (env : Env) (p : Principal) (classId quizId : ObjectId) (w : World)
    (c : ClassDoc) (q : QuizDoc) :
  role p = "teacher" ->
  Classes w !! classId = Some c ->
  teacher_id c = id p ->
  Quizzes w !! quizId = Some q ->
  route (get_quiz env (Some p) classId quizId) w = (Full q, w)
  /\ (forall env' : Env,
        route (get_quiz env' (Some p) classId quizId) w
        = route (get_quiz env (Some p) classId quizId) w).
Proof.
  intros Hr Hc Ho Hq.
  split; [|intros env']; now rewrite !(get_quiz_teacher _ p classId quizId w c q).
Qed.

(** C1, as the code has it.  For a student enrolled in the class the window
    of a quiz is closed at both ends: at [now = start_date] the whole quiz
    is returned (for a duration that is not negative), at
    [now = start_date + duration] the whole quiz is returned as well, and
    the answer is "Quiz has passed" exactly when [now] is strictly later
    than a representable end of the window. *)
Theorem student_window_is_closed
    (env : Env) (p : Principal) (classId quizId : ObjectId) (w : World)
    (c : ClassDoc) (q : QuizDoc) (s : Z) :
  role p = "student" ->
  Classes w !! classId = Some c ->
  includes (students c) (id p) = true ->
  Quizzes w !! quizId = Some q ->
  start_date q = Some s ->
  let r := route (get_quiz env (Some p) classId quizId) w in
  (0 <= duration q -> now env = s -> r = (Full q, w))
  /\ (0 <= duration q -> now env = s + duration q * 60000 -> r = (Full q, w))
  /\ (r = (Ended, w)
      <-> s <= now env /\ s + duration q * 60000 < now env
          /\ Z.abs (s + duration q * 60000) <= maxTime).
Proof.
  intros Hr Hc Hin Hq Hs r. subst r.
  rewrite (get_quiz_student env p classId quizId w c q Hr Hc Hin Hq).
  rewrite Hs. unfold date_gt, date_plus, new_Date, date_lt.
  split; [|split].
  - intros Hd Hn. rewrite Hn, Z.ltb_irrefl.
    destruct (Z.abs _ <=? maxTime); [|reflexivity].
    destruct (Z.ltb_spec (s + duration q * 60000) s); [lia | reflexivity].
  - intros Hd Hn. rewrite Hn.
    destruct (Z.ltb_spec (s + duration q * 60000) s); [lia|].
    destruct (Z.abs _ <=? maxTime); [|reflexivity].
    rewrite Z.ltb_irrefl. reflexivity.
  - destruct (Z.ltb_spec (now env) s).
    { split; [discriminate | lia]. }
    destruct (Z.leb_spec (Z.abs (s + duration q * 60000)) maxTime).
    2:{ split; [discriminate | lia]. }
    destruct (Z.ltb_spec (s + duration q * 60000) (now env)).
    + split; [lia | reflexivity].
    + split; [discriminate | lia].
Qed.

(** C1, as the specification words it, fails at the end of the window: one
    hour after the start of a 60 minute quiz the enrolled student still gets
    the whole quiz, not "Quiz has passed". *)
Lemma student_window_end_is_inclusive :
  now (env_at (sample_start + 60 * 60000))
    = sample_start + duration sample_quiz * 60000
  /\ role the_student = "student"
  /\ Classes sample_world !! 1%N = Some sample_class
  /\ includes (students sample_class) (id the_student) = true
  /\ fst (route (get_quiz (env_at (sample_start + 60 * 60000))
                          (Some the_student) 1%N 5%N) sample_world)
     = Full sample_quiz
  /\ fst (route (get_quiz (env_at (sample_start + 60 * 60000))
                          (Some the_student) 1%N 5%N) sample_world)
     <> Ended.
Proof. vm_compute. repeat split; discriminate. Qed.

(** Inside the window an enrolled student gets the whole quiz. *)
Lemma get_quiz_student_inside
    (env : Env) (p : Principal) (classId quizId : ObjectId) (w : World)
    (c : ClassDoc) (q : QuizDoc) (s : Z) :
  role p = "student" ->
  Classes w !! classId = Some c ->
  includes (students c) (id p) = true ->
  Quizzes w !! quizId = Some q ->
  start_date q = Some s ->
  s <= now env < s + duration q * 60000 ->
  route (get_quiz env (Some p) classId quizId) w = (Full q, w).
Proof.
  intros Hr Hc Hin Hq Hs Ht.
  rewrite (get_quiz_student env p classId quizId w c q Hr Hc Hin Hq).
  rewrite Hs. unfold date_gt, date_plus, new_Date, date_lt.
  destruct (Z.ltb_spec (now env) s); [lia|].
  destruct (Z.abs _ <=? maxTime); [|reflexivity].
  destruct (Z.ltb_spec (s + duration q * 60000) (now env)); [lia|].
  reflexivity.
Qed.

(** C9. A student enrolled in the class who reads a quiz inside its window
    receives the stored quiz document as it is: the response carries the
    [is_correct] flag of every option of every question. *)
Theorem student_read_exposes_correct_flags
    (env : Env) (p : Principal) (classId quizId : ObjectId) (w : World)
    (c : ClassDoc) (q : QuizDoc) (s : Z) :
  role p = "student" ->
  Classes w !! classId = Some c ->
  includes (students c) (id p) = true ->
  Quizzes w !! quizId = Some q ->
  start_date q = Some s ->
  s <= now env < s + duration q * 60000 ->
  route (get_quiz env (Some p) classId quizId) w = (Full q, w)
  /\ exposed_flags (fst (route (get_quiz env (Some p) classId quizId) w))
     = Some (correct_flags q).
Proof.
  intros Hr Hc Hin Hq Hs Ht.
  rewrite (get_quiz_student_inside env p classId quizId w c q s) by assumption.
  split; reflexivity.
Qed.

(** C10. Neither the quiz read nor the quiz update looks at the [class_id]
    of the quiz they fetch.  Whoever passes the check on the class of the
    path gets the quiz of the path, whatever class that quiz belongs to: the
    owner of the class reads it, a student of the class reads it inside its
    window, and the owner of the class overwrites it (with a start that
    passes the test and a storage that accepts the write): the stored quiz
    takes the name, the start, the duration and the questions of the body
    and keeps its [_id] and the [class_id] it had.  And for every caller,
    whether the read returns the
    quiz and whether the update goes through is the same when the stored
    quiz is filed under any other class. *)
Theorem quiz_routes_ignore_class_id
    (env : Env) (p : Principal) (classId quizId : ObjectId) (b : QuizBody)
    (w : World) (c : ClassDoc) (q : QuizDoc) :
  Classes w !! classId = Some c ->
  Quizzes w !! quizId = Some q ->
  (role p = "teacher" -> teacher_id c = id p ->
     route (get_quiz env (Some p) classId quizId) w = (Full q, w))
  /\ (role p = "student" -> includes (students c) (id p) = true ->
      forall s, start_date q = Some s ->
      s <= now env < s + duration q * 60000 ->
      route (get_quiz env (Some p) classId quizId) w = (Full q, w))
  /\ (role p = "teacher" -> teacher_id c = id p ->
      date_le (Date_of_raw (b_start_date b)) (Some (now env)) = false ->
      Quiz_valid (assign_body b q) = true ->
      quiz_write_ok env = true ->
      exists q',
        route (patch_quiz env (Some p) classId quizId b) w
        = (Updated q', set_Quizzes (<[q_id q := q']> (Quizzes w)) w)
        /\ quiz_name q' = b_quiz_name b
        /\ start_date q' = castDate (b_start_date b)
        /\ duration q' = b_duration b
        /\ questions q' = b_questions b
        /\ q_id q' = q_id q
        /\ class_id q' = class_id q)
  /\ (forall (user : option Principal) (cid : ObjectId),
      let q' := with_class_id cid q in
      let w' := set_Quizzes (<[quizId := q']> (Quizzes w)) w in
      (fst (route (get_quiz env user classId quizId) w) = Full q
       <-> fst (route (get_quiz env user classId quizId) w') = Full q')
      /\ (fst (route (patch_quiz env user classId quizId b) w)
            = Updated (assign_body b q)
          <-> fst (route (patch_quiz env user classId quizId b) w')
              = Updated (assign_body b q'))).
Proof.
  intros Hc Hq. split; [|split; [|split]].
  - intros Hr Ho. now apply get_quiz_teacher with c.
  - intros Hr Hin s Hs Ht.
    now apply (get_quiz_student_inside env p classId quizId w c q s).
  - intros Hr Ho Hle Hv Hw. exists (assign_body b q).
    split; [|by repeat split].
    run. rewrite Hr. simpl. rewrite Hc.
    apply N.eqb_eq in Ho. rewrite Ho. simpl. rewrite Hq, Hle, Hv. simpl.
    rewrite Hw. reflexivity.
  - intros user cid q' w'. subst q' w'. split.
    + run. destruct user as [u|]; simpl; [|split; discriminate].
      destruct (role u =? "teacher")%string, (role u =? "student")%string;
        simpl; try (split; discriminate);
        rewrite Hc;
        (destruct (teacher_id c =? id u)%N, (includes (students c) (id u));
         simpl; try (split; discriminate));
        rewrite Hq, lookup_insert_eq; simpl;
        try (split; reflexivity);
        (destruct (date_lt (Some (now env)) (start_date q));
         [split; discriminate|]);
        (destruct (date_gt (Some (now env)) _);
         [split; discriminate | split; reflexivity]).
    + run. destruct user as [u|]; simpl; [|split; discriminate].
      destruct (role u =? "teacher")%string; simpl; [|split; discriminate].
      rewrite Hc.
      destruct (teacher_id c =? id u)%N; simpl; [|split; discriminate].
      rewrite Hq, lookup_insert_eq.
      destruct (date_le _ _); [split; discriminate|].
      change (Quiz_valid (assign_body b (with_class_id cid q)))
        with (Quiz_valid (assign_body b q)).
      destruct (Quiz_valid (assign_body b q)); simpl; [|split; discriminate].
      destruct (quiz_write_ok env); simpl;
        [split; reflexivity | split; discriminate].
Qed.

(** ** Membership *)

(** A join that answers "Student joined the class successfully" found the
    student outside the class, wrote the class with the student appended,
    and left the [Student] collection as it was: the update of [classes]
    does not survive the casting against [studentSchema]. *)
Lemma post_join_joined
    (env : Env) (p : Principal) (classId : ObjectId) (w w1 : World)
    (c : ClassDoc) (s : StudentDoc) :
  role p = "student" ->
  Classes w !! classId = Some c ->
  Students w !! id p = Some s ->
  route (post_join env (Some p) classId) w = (Joined, w1) ->
  includes (students c) (s_id s) = false
  /\ w1 = set_Classes
            (<[c_id c := set_students (push (students c) (s_id s)) c]>
               (Classes w)) w.
Proof.
  intros Hr Hc Hs. run. rewrite Hr. simpl. rewrite Hc, Hs. simpl.
  destruct (includes (students c) (s_id s)); simpl; [discriminate|].
  rewrite Class_valid_set_students.
  destruct (Class_valid c); simpl; [|discriminate].
  destruct (class_write_ok env); simpl; [|discriminate].
  intros [= <-]. split; reflexivity.
Qed.

(** C7. Joining is idempotent.  A student already listed in the class gets
    "Student already in the class" and nothing is written; after a join
    that succeeded, the same join again gets that answer too, and the class
    lists the student exactly once. *)
Theorem post_join_idempotent
    (env env' : Env) (p : Principal) (classId : ObjectId) (w : World)
    (c : ClassDoc) (s : StudentDoc) :
  role p = "student" ->
  Classes w !! classId = Some c ->
  c_id c = classId ->
  Students w !! id p = Some s ->
  (includes (students c) (s_id s) = true ->
     route (post_join env (Some p) classId) w = (AlreadyMember, w))
  /\ (forall w1,
        route (post_join env (Some p) classId) w = (Joined, w1) ->
        route (post_join env' (Some p) classId) w1 = (AlreadyMember, w1)
        /\ exists c1, Classes w1 !! classId = Some c1
                      /\ memberships c1 (s_id s) = 1%nat).
Proof.
  intros Hr Hc Hid Hs. split.
  - intros Hin. run. rewrite Hr. simpl. rewrite Hc, Hs. simpl.
    rewrite Hin. reflexivity.
  - intros w1 Hj.
    destruct (post_join_joined env p classId w w1 c s Hr Hc Hs Hj)
      as [Hout ->].
    rewrite Hid. split.
    + run. rewrite Hr. simpl. rewrite lookup_insert_eq, Hs. simpl.
      rewrite includes_push. reflexivity.
    + eexists. split; [apply lookup_insert_eq|].
      unfold memberships. simpl. rewrite count_push.
      now rewrite (not_includes_count _ _ Hout).
Qed.

(** C8, as the code has it.  A join that succeeds appends the student to
    [students] of the class, and that is all it writes: the [Student]
    collection is unchanged, so a student whose document did not list the
    class does not list it afterwards. *)
Theorem post_join_updates_class_side_only
    (env : Env) (p : Principal) (classId : ObjectId) (w w1 : World)
    (c : ClassDoc) (s : StudentDoc) :
  role p = "student" ->
  Classes w !! classId = Some c ->
  c_id c = classId ->
  Students w !! id p = Some s ->
  route (post_join env (Some p) classId) w = (Joined, w1) ->
  Classes w1 !! classId = Some (set_students (push (students c) (s_id s)) c)
  /\ Students w1 = Students w
  /\ (~ In classId (student_classes s) ->
      forall s1, Students w1 !! id p = Some s1 ->
                 ~ In classId (student_classes s1)).
Proof.
  intros Hr Hc Hid Hs Hj.
  destruct (post_join_joined env p classId w w1 c s Hr Hc Hs Hj) as [_ ->].
  rewrite Hid. simpl. split; [apply lookup_insert_eq|].
  split; [reflexivity|].
  intros Hno s1. rewrite Hs. now intros [= <-].
Qed.

(** Had the schema of [Student] not been strict, the same route would have
    written the class into the student's [classes]. *)
Lemma post_join_on_lenient_schema
    (env : Env) (p : Principal) (classId : ObjectId) (w : World)
    (c : ClassDoc) (s : StudentDoc) :
  role p = "student" ->
  Classes w !! classId = Some c ->
  Students w !! id p = Some s ->
  includes (students c) (s_id s) = false ->
  Class_valid c = true ->
  class_write_ok env = true ->
  student_write_ok env = true ->
  exists s1,
    Students (snd (route (post_join_on {| paths := paths studentSchema;
                                          strict := false |}
                                       env (Some p) classId) w))
      !! id p = Some s1
    /\ In classId (student_classes s1).
Proof.
  intros Hr Hc Hs Hout Hcv Hcw Hsw. run. rewrite Hr. simpl.
  rewrite Hc, Hs. simpl. rewrite Hout. simpl.
  rewrite Class_valid_set_students, Hcv, Hcw. simpl. rewrite Hs, Hsw. simpl.
  eexists. split; [apply lookup_insert_eq|].
  unfold student_classes. simpl. rewrite lookup_insert_eq. simpl.
  destruct (includes _ classId) eqn:Hi.
  - now apply includes_In.
  - unfold push. apply in_or_app. right. now left.
Qed.

(** C2, as the code has it.  The teacher's add does not look for the
    student in the class: adding a student who is already listed, to a
    class whose document validates, answers "Student added to the class
    successfully" and lists the student once more. *)
Theorem post_add_student_duplicates
    (env : Env) (p : Principal) (classId studentId : ObjectId) (w : World)
    (c : ClassDoc) (s : StudentDoc) :
  role p = "teacher" ->
  Classes w !! classId = Some c ->
  teacher_id c = id p ->
  c_id c = classId ->
  Students w !! studentId = Some s ->
  includes (students c) (s_id s) = true ->
  Class_valid c = true ->
  class_write_ok env = true ->
  let r := fst (route (post_add_student env (Some p) classId studentId) w) in
  let w' := snd (route (post_add_student env (Some p) classId studentId) w) in
  r = Added /\ r <> AlreadyMember
  /\ exists c', Classes w' !! classId = Some c'
                /\ memberships c' (s_id s) = S (memberships c (s_id s))
                /\ (2 <= memberships c' (s_id s))%nat.
Proof.
  intros Hr Hc Ho Hid Hs Hin Hv Hw. cbv zeta. run. rewrite Hr. simpl.
  rewrite Hc. apply N.eqb_eq in Ho. rewrite Ho. simpl. rewrite Hs. simpl.
  rewrite Class_valid_set_students, Hv, Hw. simpl.
  split; [reflexivity|]. split; [discriminate|].
  rewrite Hid. eexists. split; [apply lookup_insert_eq|].
  unfold memberships. simpl. rewrite count_push. split; [reflexivity|].
  apply includes_In in Hin.
  apply (count_occ_In N.eq_dec) in Hin. lia.
Qed.

(** ** The theorems at the sample data *)

(** A student is refused quiz creation, and so is the teacher of class 2 on
    class 1. *)
Lemma post_quizzes_authorization_witness :
  (role the_student <> "teacher"
   /\ route (post_quizzes (env_at sample_start) (Some the_student) 1%N
                          (sample_body (raw_number (sample_start + 1))))
            sample_world
      = (NotTeacher, sample_world))
  /\ (Classes sample_world !! 1%N = Some sample_class
      /\ Classes sample_world !! 2%N = Some other_class
      /\ teacher_id other_class = id another_teacher
      /\ role another_teacher = "teacher"
      /\ teacher_id sample_class <> id another_teacher
      /\ route (post_quizzes (env_at sample_start) (Some another_teacher) 1%N
                             (sample_body (raw_number (sample_start + 1))))
               sample_world
         = (NotOwner, sample_world)).
Proof.
  split.
  - assert (H : role the_student <> "teacher") by discriminate.
    split; [exact H|].
    exact (proj1 (post_quizzes_authorization (env_at sample_start) the_student
                    1%N (sample_body (raw_number (sample_start + 1))) sample_world) H).
  - assert (Hc : Classes sample_world !! 1%N = Some sample_class)
      by (vm_compute; reflexivity).
    assert (Hr : role another_teacher = "teacher") by reflexivity.
    assert (Ho : teacher_id sample_class <> id another_teacher) by discriminate.
    split; [exact Hc|]. split; [vm_compute; reflexivity|].
    split; [reflexivity|]. split; [exact Hr|]. split; [exact Ho|].
    exact (proj1 (proj2 (post_quizzes_authorization (env_at sample_start)
                           another_teacher 1%N
                           (sample_body (raw_number (sample_start + 1)))
                           sample_world))
             sample_class Hc Hr Ho).
Defined.

(** A day after the instant [sample_start], the owner sends that instant
    as a string of digits: the creation and the update both store it. *)
Lemma start_date_in_digits_is_not_tested_witness :
  let env := env_at (sample_start + 86400000) in
  let b := sample_body (raw_digits sample_start eq_refl) in
  sample_start <= now env
  /\ (fst (route (post_quizzes env (Some the_teacher) 1%N b) sample_world)
        = Created (new_Quiz env 1%N b)
      /\ Quizzes (snd (route (post_quizzes env (Some the_teacher) 1%N b)
                             sample_world)) !! 9%N
         = Some (new_Quiz env 1%N b)
      /\ start_date (new_Quiz env 1%N b) = Some sample_start)
  /\ (fst (route (patch_quiz env (Some the_teacher) 1%N 5%N b) sample_world)
        = Updated (assign_body b sample_quiz)
      /\ Quizzes (snd (route (patch_quiz env (Some the_teacher) 1%N 5%N b)
                             sample_world)) !! 5%N
         = Some (assign_body b sample_quiz)
      /\ start_date (assign_body b sample_quiz) = Some sample_start).
Proof.
  intros env b.
  assert (Hc : Classes sample_world !! 1%N = Some sample_class)
    by (vm_compute; reflexivity).
  assert (Hq : Quizzes sample_world !! 5%N = Some sample_quiz)
    by (vm_compute; reflexivity).
  assert (Hfree : Quizzes sample_world !! new_ObjectId env = None)
    by (vm_compute; reflexivity).
  assert (Ht : sample_start <= now env) by (vm_compute; discriminate).
  pose proof (start_date_in_digits_is_not_tested env the_teacher 1%N b
                sample_world sample_class sample_start eq_refl
                eq_refl Hc eq_refl eq_refl Ht eq_refl) as [H1 H2].
  split; [exact Ht|]. split.
  - destruct (H1 eq_refl Hfree) as (Ha & _ & Hb & Hd).
    split; [exact Ha|]. split; [exact Hb | exact Hd].
  - destruct (H2 5%N sample_quiz Hq eq_refl) as (Ha & _ & Hb & Hd).
    split; [exact Ha|]. split; [exact Hb | exact Hd].
Defined.

(** A storage that is down does not save the quiz, and on a storage that
    is up the quiz is saved and the class is not: both times the owner is
    told "Quiz created successfully", and the error is on the console. *)
Lemma post_quizzes_swallows_save_errors_witness :
  let b := sample_body (raw_number (sample_start + 1)) in
  let down := env_quiz_down sample_start in
  let up := env_at sample_start in
  (quiz_write_ok down = false
   /\ fst (route (post_quizzes down (Some the_teacher) 1%N b) sample_world)
      = Created (new_Quiz down 1%N b)
   /\ Quizzes (snd (route (post_quizzes down (Some the_teacher) 1%N b)
                          sample_world))
      = Quizzes sample_world
   /\ console (snd (route (post_quizzes down (Some the_teacher) 1%N b)
                          sample_world))
      = [("Error saving quiz:", MongoError)])
  /\ (quiz_write_ok up = true /\ class_write_ok up = true
      /\ fst (route (post_quizzes up (Some the_teacher) 1%N b) sample_world)
         = Created (new_Quiz up 1%N b)
      /\ Classes (snd (route (post_quizzes up (Some the_teacher) 1%N b)
                             sample_world))
         = Classes sample_world
      /\ console (snd (route (post_quizzes up (Some the_teacher) 1%N b)
                             sample_world))
         = [("Error saving quiz:", ValidationError)]).
Proof.
  intros b down up.
  assert (Hc : Classes sample_world !! 1%N = Some sample_class)
    by (vm_compute; reflexivity).
  assert (Hfree : Quizzes sample_world !! q_id (new_Quiz up 1%N b) = None)
    by (vm_compute; reflexivity).
  assert (Hd : quiz_write_ok down = false) by reflexivity.
  split.
  - pose proof (post_quizzes_swallows_save_errors down the_teacher 1%N b
                  sample_world sample_class eq_refl Hc eq_refl eq_refl)
      as (Hr & _ & _ & _ & Hfail & _).
    destruct (Hfail eq_refl (or_introl Hd)) as (HQ & He).
    split; [exact Hd|]. split; [exact Hr|]. split; [exact HQ | exact He].
  - pose proof (post_quizzes_swallows_save_errors up the_teacher 1%N b
                  sample_world sample_class eq_refl Hc eq_refl eq_refl)
      as (Hr & _ & HC & _ & _ & Hok).
    destruct (Hok eq_refl eq_refl Hfree) as (_ & He).
    split; [reflexivity|]. split; [reflexivity|]. split; [exact Hr|].
    split; [exact HC | exact He].
Defined.

(** The owner of class 1 reads quiz 5 long before it starts. *)
Lemma owner_reads_full_quiz_at_any_time_witness :
  role the_teacher = "teacher"
  /\ Classes sample_world !! 1%N = Some sample_class
  /\ teacher_id sample_class = id the_teacher
  /\ Quizzes sample_world !! 5%N = Some sample_quiz
  /\ now (env_at 0) < sample_start
  /\ route (get_quiz (env_at 0) (Some the_teacher) 1%N 5%N) sample_world
     = (Full sample_quiz, sample_world).
Proof.
  assert (Hc : Classes sample_world !! 1%N = Some sample_class)
    by (vm_compute; reflexivity).
  assert (Hq : Quizzes sample_world !! 5%N = Some sample_quiz)
    by (vm_compute; reflexivity).
  split; [reflexivity|]. split; [exact Hc|]. split; [reflexivity|].
  split; [exact Hq|]. split; [vm_compute; reflexivity|].
  exact (proj1 (owner_reads_full_quiz_at_any_time (env_at 0) the_teacher 1%N
                  5%N sample_world sample_class sample_quiz
                  eq_refl Hc eq_refl Hq)).
Defined.

(** The enrolled student reads quiz 5 at its first and at its last instant,
    and is told it has passed one millisecond later. *)
Lemma student_window_is_closed_witness :
  role the_student = "student"
  /\ includes (students sample_class) (id the_student) = true
  /\ 0 <= duration sample_quiz
  /\ route (get_quiz (env_at sample_start) (Some the_student) 1%N 5%N)
           sample_world
     = (Full sample_quiz, sample_world)
  /\ route (get_quiz (env_at (sample_start + duration sample_quiz * 60000))
                     (Some the_student) 1%N 5%N) sample_world
     = (Full sample_quiz, sample_world)
  /\ route (get_quiz (env_at (sample_start + duration sample_quiz * 60000 + 1))
                     (Some the_student) 1%N 5%N) sample_world
     = (Ended, sample_world).
Proof.
  assert (Hc : Classes sample_world !! 1%N = Some sample_class)
    by (vm_compute; reflexivity).
  assert (Hq : Quizzes sample_world !! 5%N = Some sample_quiz)
    by (vm_compute; reflexivity).
  assert (Hd : 0 <= duration sample_quiz) by (simpl; lia).
  split; [reflexivity|]. split; [reflexivity|]. split; [exact Hd|].
  split; [|split].
  - exact (proj1 (student_window_is_closed (env_at sample_start) the_student
                    1%N 5%N sample_world sample_class sample_quiz sample_start
                    eq_refl Hc eq_refl Hq eq_refl) Hd eq_refl).
  - exact (proj1 (proj2 (student_window_is_closed
                    (env_at (sample_start + duration sample_quiz * 60000))
                    the_student 1%N 5%N sample_world sample_class sample_quiz
                    sample_start eq_refl Hc eq_refl Hq eq_refl)) Hd eq_refl).
  - apply (proj2 (proj2 (student_window_is_closed
                    (env_at (sample_start + duration sample_quiz * 60000 + 1))
                    the_student 1%N 5%N sample_world sample_class sample_quiz
                    sample_start eq_refl Hc eq_refl Hq eq_refl))).
    vm_compute. repeat split; discriminate.
Defined.

(** Half an hour into quiz 5 the enrolled student is sent which option of
    its question is the correct one. *)
Lemma student_read_exposes_correct_flags_witness :
  let env := env_at (sample_start + 30 * 60000) in
  role the_student = "student"
  /\ includes (students sample_class) (id the_student) = true
  /\ sample_start <= now env < sample_start + duration sample_quiz * 60000
  /\ exposed_flags (fst (route (get_quiz env (Some the_student) 1%N 5%N)
                               sample_world))
     = Some [[false; true]].
Proof.
  intros env.
  assert (Hc : Classes sample_world !! 1%N = Some sample_class)
    by (vm_compute; reflexivity).
  assert (Hq : Quizzes sample_world !! 5%N = Some sample_quiz)
    by (vm_compute; reflexivity).
  assert (Ht : sample_start <= now env
               < sample_start + duration sample_quiz * 60000)
    by (vm_compute; split; [discriminate | reflexivity]).
  split; [reflexivity|]. split; [reflexivity|]. split; [exact Ht|].
  exact (proj2 (student_read_exposes_correct_flags env the_student 1%N 5%N
                  sample_world sample_class sample_quiz sample_start
                  eq_refl Hc eq_refl Hq eq_refl Ht)).
Defined.

(** Quiz 7, "History Quiz", belongs to class 2.  Through the path of
    class 1 its teacher reads it, its student reads it, and its teacher
    overwrites it: the stored quiz 7 is then "Algebra", of 45 minutes, and
    still of class 2. *)
Lemma quiz_routes_ignore_class_id_witness :
  let env := env_at (sample_start - 1) in
  let env' := env_at (sample_start + 60000) in
  let b := sample_body (raw_number sample_start) in
  class_id other_quiz <> 1%N
  /\ Classes sample_world !! 1%N = Some sample_class
  /\ Quizzes sample_world !! 7%N = Some other_quiz
  /\ route (get_quiz env (Some the_teacher) 1%N 7%N) sample_world
     = (Full other_quiz, sample_world)
  /\ route (get_quiz env' (Some the_student) 1%N 7%N) sample_world
     = (Full other_quiz, sample_world)
  /\ exists q',
       route (patch_quiz env (Some the_teacher) 1%N 7%N b) sample_world
       = (Updated q',
          set_Quizzes (<[7%N := q']> (Quizzes sample_world)) sample_world)
       /\ quiz_name other_quiz = "History Quiz"
       /\ quiz_name q' = "Algebra"
       /\ start_date q' = Some sample_start
       /\ duration q' = 45
       /\ questions q' = sample_questions
       /\ q_id q' = 7%N
       /\ class_id q' = 2%N.
Proof.
  intros env env' b.
  assert (Hc : Classes sample_world !! 1%N = Some sample_class)
    by (vm_compute; reflexivity).
  assert (Hq : Quizzes sample_world !! 7%N = Some other_quiz)
    by (vm_compute; reflexivity).
  assert (Ht : sample_start <= now env'
               < sample_start + duration other_quiz * 60000)
    by (vm_compute; split; [discriminate | reflexivity]).
  split; [discriminate|]. split; [exact Hc|]. split; [exact Hq|].
  split; [|split].
  - exact (proj1 (quiz_routes_ignore_class_id env the_teacher 1%N 7%N b
                    sample_world sample_class other_quiz Hc Hq)
             eq_refl eq_refl).
  - exact (proj1 (proj2 (quiz_routes_ignore_class_id env' the_student 1%N 7%N
                    b sample_world sample_class other_quiz Hc Hq))
             eq_refl eq_refl sample_start eq_refl Ht).
  - destruct (proj1 (proj2 (proj2 (quiz_routes_ignore_class_id env
                    the_teacher 1%N 7%N b sample_world sample_class other_quiz
                    Hc Hq)))
                eq_refl eq_refl eq_refl eq_refl eq_refl)
      as (q' & Hp & Hn & Hs & Hd & Hqs & Hi & Hci).
    exists q'. split; [exact Hp|]. split; [reflexivity|].
    split; [exact Hn|]. split; [exact Hs|]. split; [exact Hd|].
    split; [exact Hqs|]. split; [exact Hi | exact Hci].
Defined.

(** The enrolled student joins class 1 again; the newcomer joins it twice. *)
Lemma post_join_idempotent_witness :
  let env := env_at sample_start in
  let w1 := snd (route (post_join env (Some the_newcomer) 1%N) sample_world) in
  (includes (students sample_class) (s_id sample_student) = true
   /\ route (post_join env (Some the_student) 1%N) sample_world
      = (AlreadyMember, sample_world))
  /\ (route (post_join env (Some the_newcomer) 1%N) sample_world = (Joined, w1)
      /\ route (post_join env (Some the_newcomer) 1%N) w1 = (AlreadyMember, w1)
      /\ exists c1, Classes w1 !! 1%N = Some c1
                    /\ memberships c1 (s_id new_student) = 1%nat).
Proof.
  intros env w1.
  assert (Hc : Classes sample_world !! 1%N = Some sample_class)
    by (vm_compute; reflexivity).
  assert (Hs : Students sample_world !! id the_student = Some sample_student)
    by (vm_compute; reflexivity).
  assert (Hn : Students sample_world !! id the_newcomer = Some new_student)
    by (vm_compute; reflexivity).
  assert (Hin : includes (students sample_class) (s_id sample_student) = true)
    by reflexivity.
  assert (Hj : route (post_join env (Some the_newcomer) 1%N) sample_world
               = (Joined, w1))
    by (vm_compute; reflexivity).
  split.
  - split; [exact Hin|].
    exact (proj1 (post_join_idempotent env env the_student 1%N sample_world
                    sample_class sample_student eq_refl Hc eq_refl Hs) Hin).
  - split; [exact Hj|].
    exact (proj2 (post_join_idempotent env env the_newcomer 1%N sample_world
                    sample_class new_student eq_refl Hc eq_refl Hn) w1 Hj).
Defined.

(** The newcomer joins class 1: the class lists the newcomer, the
    newcomer's document is the one it was and lists no class. *)
Lemma post_join_updates_class_side_only_witness :
  let env := env_at sample_start in
  let w1 := snd (route (post_join env (Some the_newcomer) 1%N) sample_world) in
  route (post_join env (Some the_newcomer) 1%N) sample_world = (Joined, w1)
  /\ ~ In 1%N (student_classes new_student)
  /\ Classes w1 !! 1%N
     = Some (set_students [20%N; 21%N] sample_class)
  /\ Students w1 = Students sample_world
  /\ (forall s1, Students w1 !! id the_newcomer = Some s1 ->
                 ~ In 1%N (student_classes s1)).
Proof.
  intros env w1.
  assert (Hc : Classes sample_world !! 1%N = Some sample_class)
    by (vm_compute; reflexivity).
  assert (Hn : Students sample_world !! id the_newcomer = Some new_student)
    by (vm_compute; reflexivity).
  assert (Hj : route (post_join env (Some the_newcomer) 1%N) sample_world
               = (Joined, w1))
    by (vm_compute; reflexivity).
  assert (Hno : ~ In 1%N (student_classes new_student))
    by (intros H; exact H).
  pose proof (post_join_updates_class_side_only env the_newcomer 1%N
                sample_world w1 sample_class new_student
                eq_refl Hc eq_refl Hn Hj) as (H1 & H2 & H3).
  split; [exact Hj|]. split; [exact Hno|]. split; [exact H1|].
  split; [exact H2 | exact (H3 Hno)].
Defined.

(** The teacher of class 1 adds the student it already lists. *)
Lemma post_add_student_duplicates_witness :
  let env := env_at sample_start in
  let w' := snd (route (post_add_student env (Some the_teacher) 1%N 20%N)
                       sample_world) in
  includes (students sample_class) (s_id sample_student) = true
  /\ Class_valid sample_class = true
  /\ class_write_ok env = true
  /\ fst (route (post_add_student env (Some the_teacher) 1%N 20%N)
                sample_world) = Added
  /\ exists c', Classes w' !! 1%N = Some c'
                /\ memberships c' (s_id sample_student)
                   = S (memberships sample_class (s_id sample_student))
                /\ (2 <= memberships c' (s_id sample_student))%nat.
Proof.
  intros env w'.
  assert (Hc : Classes sample_world !! 1%N = Some sample_class)
    by (vm_compute; reflexivity).
  assert (Hs : Students sample_world !! 20%N = Some sample_student)
    by (vm_compute; reflexivity).
  pose proof (post_add_student_duplicates env the_teacher 1%N 20%N
                sample_world sample_class sample_student
                eq_refl Hc eq_refl eq_refl Hs eq_refl eq_refl eq_refl)
    as (Hr & _ & Hex).
  split; [reflexivity|]. split; [reflexivity|]. split; [reflexivity|].
  split; [exact Hr | exact Hex].
Defined.

(** ** The code at the inputs where it leaves the specification *)

(** C2 at the sample data: student 20 is enrolled in class 1; the teacher
    adds student 20; the answer is "Student added to the class
    successfully" and the class lists student 20 twice. *)
Lemma post_add_student_twice_listed :
  students sample_class = [20%N]
  /\ route (post_add_student (env_at sample_start) (Some the_teacher) 1%N 20%N)
           sample_world
     = (Added,
        set_Classes (<[1%N := set_students [20%N; 20%N] sample_class]>
                       (Classes sample_world)) sample_world)
  /\ Added <> AlreadyMember.
Proof. split; [reflexivity|]. split; [vm_compute; reflexivity | discriminate]. Qed.

(** C8 at the sample data: the newcomer joins class 1; the class lists the
    newcomer and the newcomer's document still has no [classes]. *)
Lemma post_join_student_not_updated :
  let w1 := snd (route (post_join (env_at sample_start) (Some the_newcomer) 1%N)
                       sample_world) in
  fst (route (post_join (env_at sample_start) (Some the_newcomer) 1%N)
             sample_world) = Joined
  /\ (students <$> Classes w1 !! 1%N) = Some [20%N; 21%N]
  /\ (student_classes <$> Students w1 !! 21%N) = Some [].
Proof. vm_compute. repeat split. Qed.

(** * Further properties of the router *)

Ltac exec :=
  unfold route, serve, post_quizzes, patch_quiz, get_quiz, post_join,
    post_join_on, post_add_student, post_create, get_students, get_quizzes,
    get_classes, authenticateToken, student_gate, try_catch, deref, respond,
    throw, Class_findById, Student_findById, Quiz_findById, Teacher_findById,
    Class_find, Quiz_find, Quiz_validate, Quiz_save_new, Quiz_save,
    Class_save, Class_save_new, Student_findByIdAndUpdate, console_error,
    mbind, Handler_bind, mret, Handler_ret;
  cbn beta iota.

(** ** Adding and joining: what is refused *)

(** X1. [POST /:classId/add-student] checks, in this order, the role, the
    class, its teacher and the student, and whatever it refuses leaves the
    world as it was: 403 for a caller who is no teacher, 404 for a class
    that is not there, 403 for a teacher of another class, 404 for a
    student who is not there. *)
Theorem post_add_student_refusals
    (env : Env) (p : Principal) (classId studentId : ObjectId) (w : World) :
  let r := route (post_add_student env (Some p) classId studentId) w in
  (role p <> "teacher" -> r = (NotTeacher, w))
  /\ (role p = "teacher" -> Classes w !! classId = None ->
      r = (ClassNotFound, w))
  /\ (forall c, role p = "teacher" -> Classes w !! classId = Some c ->
      teacher_id c <> id p -> r = (NotOwner, w))
  /\ (forall c, role p = "teacher" -> Classes w !! classId = Some c ->
      teacher_id c = id p -> Students w !! studentId = None ->
      r = (StudentNotFound, w)).
Proof.
  cbv zeta. repeat split.
  - intros Hr. exec. now rewrite (role_is_not _ _ Hr).
  - intros Hr Hc. exec. rewrite Hr. simpl. now rewrite Hc.
  - intros c Hr Hc Ho. exec. rewrite Hr. simpl. rewrite Hc.
    apply N.eqb_neq in Ho. now rewrite Ho.
  - intros c Hr Hc Ho Hs. exec. rewrite Hr. simpl. rewrite Hc.
    apply N.eqb_eq in Ho. rewrite Ho. simpl. now rewrite Hs.
Qed.

(** X2. [POST /join] refuses a caller who is no student with 403 and a
    class that is not there with 404, the latter also when the caller's own
    document is missing; a caller without a document who names a class that
    exists gets 500.  None of the three writes a collection. *)
Theorem post_join_refusals
    (env : Env) (p : Principal) (classId : ObjectId) (w : World) :
  let r := route (post_join env (Some p) classId) w in
  (role p <> "student" -> r = (NotStudent, w))
  /\ (role p = "student" -> Classes w !! classId = None ->
      r = (ClassNotFound, w))
  /\ (forall c, role p = "student" -> Classes w !! classId = Some c ->
      Students w !! id p = None -> r = (Internal, logged TypeError w)).
Proof.
  cbv zeta. repeat split.
  - intros Hr. exec. now rewrite (role_is_not _ _ Hr).
  - intros Hr Hc. exec. rewrite Hr. simpl. now rewrite Hc.
  - intros c Hr Hc Hs. exec. rewrite Hr. simpl. now rewrite Hc, Hs.
Qed.

(** ** Adding and joining: what is kept *)

Lemma membership_extended_refl (w : World) : membership_extended w w.
Proof.
  repeat split; try done.
  intros i c Hc. exists c. repeat split; try done. lia.
Qed.

Lemma membership_extended_logged (e : Error) (w : World) :
  membership_extended w (logged e w).
Proof. exact (membership_extended_refl w). Qed.

Lemma membership_extended_push
    (w : World) (classId : ObjectId) (c : ClassDoc) (x : ObjectId) :
  Classes w !! classId = Some c ->
  c_id c = classId ->
  membership_extended w
    (set_Classes (<[c_id c := set_students (push (students c) x) c]>
                    (Classes w)) w).
Proof.
  intros Hc Hid. rewrite Hid. repeat split; simpl.
  - intros i Hi. rewrite lookup_insert_ne; [done | congruence].
  - intros i c0 Hi. destruct (decide (classId = i)) as [<-|Hne].
    + rewrite lookup_insert_eq. eexists. split; [done|].
      assert (c0 = c) as -> by congruence. simpl.
      repeat split; try done.
      * unfold push. now apply prefix_app_r.
      * unfold push. rewrite length_app. simpl. lia.
    + rewrite lookup_insert_ne by done. exists c0.
      repeat split; try done. lia.
Qed.

(** X3. Membership only grows.  Whatever the request, after
    [POST /:classId/add-student] and after [POST /join] every class is
    still there with its teacher, name and quizzes, its students are those
    it had, in their order, followed by at most one more, no class has
    appeared, and the students and quizzes are untouched. *)
Theorem membership_only_grows
    (env : Env) (user : option Principal) (classId studentId : ObjectId)
    (w : World) :
  keyed w ->
  membership_extended w
    (snd (route (post_add_student env user classId studentId) w))
  /\ membership_extended w (snd (route (post_join env user classId) w)).
Proof.
  intros [Hk _]. split.
  - exec. destruct user as [p|]; simpl;
      [|apply membership_extended_logged].
    destruct (role p =? "teacher")%string; simpl;
      [|apply membership_extended_refl].
    destruct (Classes w !! classId) as [c|] eqn:Hc; simpl;
      [|apply membership_extended_refl].
    destruct (teacher_id c =? id p)%N; simpl;
      [|apply membership_extended_refl].
    destruct (Students w !! studentId) as [s|]; simpl;
      [|apply membership_extended_refl].
    rewrite Class_valid_set_students.
    destruct (Class_valid c); simpl; [|apply membership_extended_logged].
    destruct (class_write_ok env); simpl;
      [|apply membership_extended_logged].
    apply (membership_extended_push w classId c); [done|].
    exact (map_Forall_lookup_1 _ _ _ _ Hk Hc).
  - exec. destruct user as [p|]; simpl;
      [|apply membership_extended_logged].
    destruct (role p =? "student")%string; simpl;
      [|apply membership_extended_refl].
    destruct (Classes w !! classId) as [c|] eqn:Hc; simpl;
      [|apply membership_extended_refl].
    destruct (Students w !! id p) as [s|]; simpl;
      [|apply membership_extended_logged].
    destruct (includes (students c) (s_id s)); simpl;
      [apply membership_extended_refl|].
    rewrite Class_valid_set_students.
    destruct (Class_valid c); simpl; [|apply membership_extended_logged].
    destruct (class_write_ok env); simpl;
      [|apply membership_extended_logged].
    apply (membership_extended_push w classId c); [done|].
    exact (map_Forall_lookup_1 _ _ _ _ Hk Hc).
Qed.

Lemma not_includes_not_elem (l : list ObjectId) (x : ObjectId) :
  includes l x = false -> x ∉ l.
Proof.
  intros H Hin. apply list_elem_of_In, includes_In in Hin. congruence.
Qed.

(** X4. [POST /join] never makes a duplicate: if no class lists a student
    twice before the request, none does after it, whatever the request. *)
Theorem post_join_keeps_no_duplicates
    (env : Env) (user : option Principal) (classId : ObjectId) (w : World) :
  no_duplicates w ->
  no_duplicates (snd (route (post_join env user classId) w)).
Proof.
  intros Hn. exec. destruct user as [p|]; simpl; [|exact Hn].
  destruct (role p =? "student")%string; simpl; [|exact Hn].
  destruct (Classes w !! classId) as [c|] eqn:Hc; simpl; [|exact Hn].
  destruct (Students w !! id p) as [s|]; simpl; [|exact Hn].
  destruct (includes (students c) (s_id s)) eqn:Hin; simpl; [exact Hn|].
  rewrite Class_valid_set_students.
  destruct (Class_valid c); simpl; [|exact Hn].
  destruct (class_write_ok env); simpl; [|exact Hn].
  unfold no_duplicates. simpl. apply map_Forall_insert_2; [|exact Hn].
  simpl. unfold push. apply NoDup_app. split; [|split].
  - exact (map_Forall_lookup_1 _ _ _ _ Hn Hc).
  - intros x Hx Hx'. apply list_elem_of_singleton in Hx'. subst x.
    now apply (not_includes_not_elem _ _ Hin).
  - apply NoDup_singleton.
Qed.

(** X5. The two ways into a class see each other's work, in a class whose
    document validates.  After the teacher has added a student, that
    student's own join answers "Student already in the class" and writes
    nothing; after a student has joined, the teacher's add of that student
    lists the student a second time. *)
Theorem add_student_and_join_compose
    (env env' : Env) (teacher student : Principal) (classId : ObjectId)
    (w : World) (c : ClassDoc) (s : StudentDoc) :
  role teacher = "teacher" ->
  role student = "student" ->
  Classes w !! classId = Some c ->
  c_id c = classId ->
  teacher_id c = id teacher ->
  Students w !! id student = Some s ->
  Class_valid c = true ->
  class_write_ok env = true ->
  class_write_ok env' = true ->
  (let w1 := snd (route (post_add_student env (Some teacher) classId
                                          (id student)) w) in
   route (post_join env' (Some student) classId) w1 = (AlreadyMember, w1))
  /\ (includes (students c) (s_id s) = false ->
      let w1 := snd (route (post_join env (Some student) classId) w) in
      let w2 := snd (route (post_add_student env' (Some teacher) classId
                                             (id student)) w1) in
      exists c2, Classes w2 !! classId = Some c2
                 /\ memberships c2 (s_id s) = 2%nat).
Proof.
  intros Ht Hs Hc Hid Ho Hst Hv Hw Hw'.
  apply N.eqb_eq in Ho. split.
  - cbv zeta. exec. rewrite Ht, Hs. simpl. rewrite Hc, Ho. simpl.
    rewrite Hst. simpl. rewrite Class_valid_set_students, Hv, Hw. simpl.
    rewrite Hid, lookup_insert_eq, Hst. simpl.
    now rewrite includes_push.
  - intros Hout. cbv zeta. exec. rewrite Ht, Hs. simpl. rewrite Hc, Hst. simpl.
    rewrite Hout. simpl. rewrite Class_valid_set_students, Hv, Hw. simpl.
    rewrite Hid, lookup_insert_eq. simpl.
    rewrite Ho. simpl. rewrite Hst. simpl.
    rewrite !Class_valid_set_students, Hv, Hw'. simpl.
    rewrite Hid, lookup_insert_eq. eexists. split; [done|].
    unfold memberships. simpl. rewrite !count_push.
    now rewrite (not_includes_count _ _ Hout).
Qed.

(** ** Writing quizzes: what is kept *)

(** X6. [PATCH /:classId/quizzes/:quizId] touches the quiz of the path and
    nothing else.  Whatever the request, the classes and the students are
    as before, every other quiz is as before, no quiz appears where there
    was none, and the quiz of the path is either as before or has taken the
    four fields of the body and kept its [_id] and its [class_id]. *)
Theorem patch_quiz_touches_one_quiz
    (env : Env) (user : option Principal) (classId quizId : ObjectId)
    (b : QuizBody) (w : World) :
  keyed w ->
  let w' := snd (route (patch_quiz env user classId quizId b) w) in
  Classes w' = Classes w
  /\ Students w' = Students w
  /\ (forall j, j <> quizId -> Quizzes w' !! j = Quizzes w !! j)
  /\ (Quizzes w !! quizId = None -> Quizzes w' !! quizId = None)
  /\ (forall q, Quizzes w !! quizId = Some q ->
        Quizzes w' !! quizId = Some q
        \/ (Quizzes w' !! quizId = Some (assign_body b q)
            /\ q_id (assign_body b q) = q_id q
            /\ class_id (assign_body b q) = class_id q)).
Proof.
  intros [_ Hk]. cbv zeta.
  assert (Hsame : forall w', Classes w' = Classes w ->
            Students w' = Students w -> Quizzes w' = Quizzes w ->
            Classes w' = Classes w
            /\ Students w' = Students w
            /\ (forall j, j <> quizId -> Quizzes w' !! j = Quizzes w !! j)
            /\ (Quizzes w !! quizId = None -> Quizzes w' !! quizId = None)
            /\ (forall q, Quizzes w !! quizId = Some q ->
                  Quizzes w' !! quizId = Some q
                  \/ (Quizzes w' !! quizId = Some (assign_body b q)
                      /\ q_id (assign_body b q) = q_id q
                      /\ class_id (assign_body b q) = class_id q))).
  { intros w' H1 H2 H3. rewrite H3. repeat split; auto. }
  exec.
  destruct user as [p|]; simpl; [|by apply Hsame].
  destruct (role p =? "teacher")%string; simpl; [|by apply Hsame].
  destruct (Classes w !! classId) as [c|]; simpl; [|by apply Hsame].
  destruct (teacher_id c =? id p)%N; simpl; [|by apply Hsame].
  destruct (Quizzes w !! quizId) as [q|] eqn:Hq; simpl; [|by apply Hsame].
  destruct (date_le _ _); simpl; [by apply Hsame|].
  destruct (Quiz_valid _); simpl; [|by apply Hsame].
  destruct (quiz_write_ok env); simpl; [|by apply Hsame].
  assert (Hid : q_id q = quizId) by exact (map_Forall_lookup_1 _ _ _ _ Hk Hq).
  rewrite Hid. repeat split.
  - intros j Hj. now rewrite lookup_insert_ne.
  - discriminate.
  - intros q0 [= <-]. right. rewrite lookup_insert_eq. by repeat split.
Qed.

(** X7. Every quiz that a request writes is valid, and starts after the
    request whenever the route could read its start.  After
    [POST /:classId/quizzes] and after [PATCH /:classId/quizzes/:quizId],
    whatever the request, a stored quiz is either one that was stored
    before, unchanged, or one that passes the validators and has a date as
    its start; and if [new Date(start_date)] of the body is a date, the
    start of that quiz is this date and is strictly later than the [now]
    of the request. *)
Theorem written_quizzes_are_valid_and_tested
    (env : Env) (user : option Principal) (classId quizId : ObjectId)
    (b : QuizBody) (w : World) :
  forall w',
    w' = snd (route (post_quizzes env user classId b) w)
    \/ w' = snd (route (patch_quiz env user classId quizId b) w) ->
    forall j q', Quizzes w' !! j = Some q' ->
      Quizzes w !! j = Some q'
      \/ (Quiz_valid q' = true
          /\ (exists t, start_date q' = Some t)
          /\ (forall t, Date_of_raw (b_start_date b) = Some t ->
                start_date q' = Some t /\ now env < t)).
Proof.
  assert (Hfut : forall q, Quiz_valid q = true ->
            start_date q = castDate (b_start_date b) ->
            date_le (Date_of_raw (b_start_date b)) (Some (now env)) = false ->
            (exists t, start_date q = Some t)
            /\ (forall t, Date_of_raw (b_start_date b) = Some t ->
                  start_date q = Some t /\ now env < t)).
  { intros q Hv Hs Hle. split.
    - unfold Quiz_valid in Hv. destruct (start_date q) as [t|]; [eauto|].
      rewrite andb_false_r in Hv. discriminate.
    - intros t Ht. rewrite Hs, (castDate_of_Date _ _ Ht). split; [done|].
      rewrite Ht in Hle. unfold date_le in Hle. apply Z.leb_gt in Hle. lia. }
  intros w' [-> | ->] j q'; exec.
  - destruct user as [p|]; simpl; [|by left].
    destruct (role p =? "teacher")%string; simpl; [|by left].
    destruct (Classes w !! classId) as [c|]; simpl; [|by left].
    destruct (teacher_id c =? id p)%N; simpl; [|by left].
    destruct (date_le _ _) eqn:Hle; simpl; [by left|].
    destruct (Quiz_valid (new_Quiz env classId b)) eqn:Hv; simpl; [|by left].
    destruct (Quizzes w !! new_ObjectId env) eqn:Hq; simpl; [by left|].
    destruct (quiz_write_ok env); simpl; [|by left].
    rewrite Class_valid_push_id. simpl.
    destruct (decide (new_ObjectId env = j)) as [<-|Hne].
    + rewrite lookup_insert_eq. intros [= <-]. right.
      split; [done|]. now apply Hfut.
    + rewrite lookup_insert_ne by done. by left.
  - destruct user as [p|]; simpl; [|by left].
    destruct (role p =? "teacher")%string; simpl; [|by left].
    destruct (Classes w !! classId) as [c|]; simpl; [|by left].
    destruct (teacher_id c =? id p)%N; simpl; [|by left].
    destruct (Quizzes w !! quizId) as [q|]; simpl; [|by left].
    destruct (date_le _ _) eqn:Hle; simpl; [by left|].
    destruct (Quiz_valid (assign_body b q)) eqn:Hv; simpl; [|by left].
    destruct (quiz_write_ok env); simpl; [|by left].
    destruct (decide (q_id q = j)) as [<-|Hne].
    + rewrite lookup_insert_eq. intros [= <-]. right.
      split; [done|]. now apply Hfut.
    + rewrite lookup_insert_ne by done. by left.
Qed.

(** X8. [POST /:classId/quizzes] never overwrites.  Whatever the request,
    every quiz stored before is stored unchanged after, the students are
    untouched, and every class keeps its teacher and its students. *)
Theorem post_quizzes_never_overwrites
    (env : Env) (user : option Principal) (classId : ObjectId)
    (b : QuizBody) (w : World) :
  keyed w ->
  let w' := snd (route (post_quizzes env user classId b) w) in
  (forall j q, Quizzes w !! j = Some q -> Quizzes w' !! j = Some q)
  /\ Students w' = Students w
  /\ (forall i c, Classes w !! i = Some c ->
        exists c', Classes w' !! i = Some c'
                   /\ teacher_id c' = teacher_id c
                   /\ students c' = students c).
Proof.
  intros [Hk _]. cbv zeta.
  assert (Hsame : forall w', Classes w' = Classes w ->
            Students w' = Students w -> Quizzes w' = Quizzes w ->
            (forall j q, Quizzes w !! j = Some q -> Quizzes w' !! j = Some q)
            /\ Students w' = Students w
            /\ (forall i c, Classes w !! i = Some c ->
                  exists c', Classes w' !! i = Some c'
                             /\ teacher_id c' = teacher_id c
                             /\ students c' = students c)).
  { intros w' H1 H2 H3. rewrite H1, H3. repeat split; eauto. }
  exec.
  destruct user as [p|]; simpl; [|by apply Hsame].
  destruct (role p =? "teacher")%string; simpl; [|by apply Hsame].
  destruct (Classes w !! classId) as [c|] eqn:Hc; simpl; [|by apply Hsame].
  destruct (teacher_id c =? id p)%N; simpl; [|by apply Hsame].
  destruct (date_le _ _); simpl; [by apply Hsame|].
  destruct (Quiz_valid _); simpl; [|by apply Hsame].
  destruct (Quizzes w !! new_ObjectId env) eqn:Hq; simpl; [by apply Hsame|].
  destruct (quiz_write_ok env); simpl; [|by apply Hsame].
  assert (Hold : forall j q, Quizzes w !! j = Some q ->
            <[new_ObjectId env := new_Quiz env classId b]> (Quizzes w) !! j
            = Some q).
  { intros j q Hj. rewrite lookup_insert_ne; [done | congruence]. }
  rewrite Class_valid_push_id. simpl.
  split; [exact Hold|]. split; [done|]. eauto.
Qed.

(** ** Reading quizzes *)

(** X9. A quiz that was created can be read.  When the owner's request
    has passed the test, the quiz validates, the new [_id] is free and the
    quiz is written, the owner reads the new quiz back under any clock; and
    if [new Date(start_date)] of the request was a date, a student of the
    class who asks no later than the instant of the creation is told that
    the quiz has not started. *)
Theorem created_quiz_can_be_read
    (env : Env) (p : Principal) (classId : ObjectId) (b : QuizBody)
    (w : World) (c : ClassDoc) :
  role p = "teacher" ->
  Classes w !! classId = Some c ->
  teacher_id c = id p ->
  date_le (Date_of_raw (b_start_date b)) (Some (now env)) = false ->
  Quiz_valid (new_Quiz env classId b) = true ->
  Quizzes w !! new_ObjectId env = None ->
  quiz_write_ok env = true ->
  let q := new_Quiz env classId b in
  let w1 := snd (route (post_quizzes env (Some p) classId b) w) in
  (forall env',
     route (get_quiz env' (Some p) classId (q_id q)) w1 = (Full q, w1))
  /\ (forall t env' s,
        Date_of_raw (b_start_date b) = Some t ->
        role s = "student" -> includes (students c) (id s) = true ->
        now env' <= now env ->
        route (get_quiz env' (Some s) classId (q_id q)) w1 = (NotStarted, w1)).
Proof.
  intros Hr Hc Ho Hle Hv Hfree Hw q w1.
  assert (Hw1 : Quizzes w1 !! q_id q = Some q
                /\ Classes w1 !! classId = Some c).
  { subst w1 q. exec. rewrite Hr. simpl. rewrite Hc.
    apply N.eqb_eq in Ho. rewrite Ho. simpl. rewrite Hle, Hv. simpl.
    rewrite Hfree, Hw. simpl. rewrite Class_valid_push_id. simpl.
    rewrite lookup_insert_eq. by split. }
  destruct Hw1 as (Hq & Hc'). split.
  - intros env'. now apply get_quiz_teacher with c.
  - intros t env' s Ht Hrs Hin Hnow.
    rewrite (get_quiz_student env' s classId (q_id q) w1 c q Hrs Hc' Hin Hq).
    assert (date_lt (Some (now env')) (start_date q) = true) as ->; [|done].
    subst q. simpl. rewrite (castDate_of_Date _ _ Ht).
    rewrite Ht in Hle. unfold date_le in Hle. unfold date_lt.
    apply Z.leb_gt in Hle. apply Z.ltb_lt. lia.
Qed.

(** X10. The two reads of quizzes write no collection: whatever the
    request and whatever the answer, after [GET /:classId/quizzes/:quizId]
    and after [GET /:classId/quizzes] the classes, the students and the
    quizzes are those of before. *)
Theorem quiz_reads_do_not_write
    (env : Env) (user : option Principal) (classId quizId : ObjectId)
    (w : World) :
  let w1 := snd (route (get_quiz env user classId quizId) w) in
  let w2 := snd (serve (get_quizzes user classId) w) in
  (Classes w1 = Classes w /\ Students w1 = Students w
   /\ Quizzes w1 = Quizzes w)
  /\ (Classes w2 = Classes w /\ Students w2 = Students w
      /\ Quizzes w2 = Quizzes w).
Proof.
  cbv zeta. split.
  - exec. destruct user as [p|]; simpl; [|done].
    destruct (negb (role p =? "teacher")%string
              && negb (role p =? "student")%string); simpl; [done|].
    destruct (Classes w !! classId) as [c|]; simpl; [|done].
    destruct (negb _); simpl; [done|].
    destruct (Quizzes w !! quizId) as [q|]; simpl; [|done].
    destruct (role p =? "student")%string; simpl; [|done].
    destruct (date_lt _ _); simpl; [done|].
    destruct (date_gt _ _); simpl; done.
  - exec. destruct user as [p|]; simpl; [|done].
    destruct (negb (role p =? "teacher")%string
              && negb (role p =? "student")%string); simpl; [done|].
    destruct (Classes w !! classId) as [c|]; simpl; [|done].
    destruct (negb _); simpl; done.
Qed.

(** X11. The quizzes of a class are for its teacher and its students.  A
    caller, teacher or student, who is neither the [teacher_id] of the class
    nor in its [students] gets 403 from both reads, whatever the quiz asked
    for and whether it exists, and a caller with any other role gets 403
    before the class is even looked up. *)
Theorem quiz_reads_are_for_members
    (env : Env) (p : Principal) (classId quizId : ObjectId) (w : World) :
  (role p <> "teacher" -> role p <> "student" ->
     route (get_quiz env (Some p) classId quizId) w = (Forbidden, w)
     /\ serve (get_quizzes (Some p) classId) w = (inl Forbidden, w))
  /\ (forall c,
        role p = "teacher" \/ role p = "student" ->
        Classes w !! classId = Some c ->
        teacher_id c <> id p ->
        includes (students c) (id p) = false ->
        route (get_quiz env (Some p) classId quizId) w
          = (NotAuthorizedQuiz, w)
        /\ serve (get_quizzes (Some p) classId) w
           = (inl NotAuthorizedQuizzes, w)).
Proof.
  split.
  - intros Ht Hs. exec.
    rewrite (role_is_not _ _ Ht), (role_is_not _ _ Hs). by split.
  - intros c Hr Hc Ho Hin. apply N.eqb_neq in Ho.
    assert (Hrole : negb (role p =? "teacher")%string
                    && negb (role p =? "student")%string = false).
    { destruct Hr as [-> | ->]; reflexivity. }
    exec. rewrite Hrole, Hc, Ho, Hin. by split.
Qed.

(** X12. Outside the window a student gets no quiz content.  For a caller
    with the role of a student and a stored quiz with a start date, a read
    before the start, or after an end that is a date, carries no quiz and
    so none of its [is_correct] flags, in whatever class the read is
    made. *)
Theorem student_outside_window_gets_no_content
    (env : Env) (p : Principal) (classId quizId : ObjectId) (w : World)
    (q : QuizDoc) (s : Z) :
  role p = "student" ->
  Quizzes w !! quizId = Some q ->
  start_date q = Some s ->
  now env < s
  \/ (s + duration q * 60000 < now env
      /\ Z.abs (s + duration q * 60000) <= maxTime) ->
  exposed_flags (fst (route (get_quiz env (Some p) classId quizId) w)) = None.
Proof.
  intros Hr Hq Hs Hout. exec. rewrite Hr. simpl.
  destruct (Classes w !! classId) as [c|]; simpl; [|done].
  destruct (negb _); simpl; [done|].
  rewrite Hq, Hs. unfold date_lt, date_gt, date_plus, new_Date.
  destruct (Z.ltb_spec (now env) s); simpl; [done|].
  destruct Hout as [?|[Hend Hab]]; [lia|].
  apply Z.leb_le in Hab. rewrite Hab.
  apply Z.ltb_lt in Hend. unfold date_lt. now rewrite Hend.
Qed.

Lemma elem_of_find {A} (cond : A -> bool) (m : gmap ObjectId A) (x : A) :
  In x (List.filter cond (map snd (map_to_list m)))
  <-> exists i, m !! i = Some x /\ cond x = true.
Proof.
  rewrite filter_In, in_map_iff. split.
  - intros [[[i y] [Hy Hin]] Hc]. simpl in Hy. subst y.
    apply list_elem_of_In, elem_of_map_to_list in Hin. eauto.
  - intros (i & Hi & Hc). split; [|done]. exists (i, x). split; [done|].
    now apply list_elem_of_In, elem_of_map_to_list.
Qed.

(** What a member of the class gets from the quiz listing. *)
Lemma get_quizzes_member
    (p : Principal) (classId : ObjectId) (w : World) (c : ClassDoc) :
  role p = "teacher" \/ role p = "student" ->
  Classes w !! classId = Some c ->
  teacher_id c = id p \/ includes (students c) (id p) = true ->
  serve (get_quizzes (Some p) classId) w
  = (inr (map quiz_summary
            (List.filter (fun quiz => (class_id quiz =? classId)%N)
                         (map snd (map_to_list (Quizzes w))))), w).
Proof.
  intros Hr Hc Hm.
  assert (Hrole : negb (role p =? "teacher")%string
                  && negb (role p =? "student")%string = false).
  { destruct Hr as [-> | ->]; reflexivity. }
  assert (Hmem : (teacher_id c =? id p)%N || includes (students c) (id p)
                 = true).
  { destruct Hm as [Ho|Hin].
    - apply N.eqb_eq in Ho. now rewrite Ho.
    - rewrite Hin. apply orb_true_r. }
  exec. rewrite Hrole, Hc, Hmem. reflexivity.
Qed.


(** X14. A quiz that was written is listed, though the class was not
    written.  After a creation that stored the quiz, the teacher and every
    student of the class find its summary in [GET /:classId/quizzes],
    while the save of the class has failed and the classes are the
    documents they were. *)
Theorem created_quiz_is_listed
    (env : Env) (p m : Principal) (classId : ObjectId) (b : QuizBody)
    (w : World) (c : ClassDoc) :
  keyed w ->
  role p = "teacher" ->
  Classes w !! classId = Some c ->
  teacher_id c = id p ->
  date_le (Date_of_raw (b_start_date b)) (Some (now env)) = false ->
  Quiz_valid (new_Quiz env classId b) = true ->
  Quizzes w !! new_ObjectId env = None ->
  quiz_write_ok env = true ->
  role m = "teacher" \/ role m = "student" ->
  teacher_id c = id m \/ includes (students c) (id m) = true ->
  let w1 := snd (route (post_quizzes env (Some p) classId b) w) in
  exists l, serve (get_quizzes (Some m) classId) w1 = (inr l, w1)
            /\ In (quiz_summary (new_Quiz env classId b)) l
            /\ Classes w1 = Classes w.
Proof.
  intros _ Hr Hc Ho Hle Hv Hfree Hw Hrm Hm w1.
  assert (Hw1 : Quizzes w1 !! new_ObjectId env = Some (new_Quiz env classId b)
                /\ Classes w1 = Classes w).
  { subst w1. exec. rewrite Hr. simpl. rewrite Hc.
    apply N.eqb_eq in Ho. rewrite Ho. simpl. rewrite Hle, Hv. simpl.
    rewrite Hfree, Hw. simpl. rewrite Class_valid_push_id. simpl.
    rewrite lookup_insert_eq. by split. }
  destruct Hw1 as (Hq & HC).
  eexists. split; [|split].
  - apply get_quizzes_member with c; [done | by rewrite HC | done].
  - apply in_map. apply elem_of_find. exists (new_ObjectId env).
    split; [done|]. simpl. apply N.eqb_refl.
  - exact HC.
Qed.

(** ** Creating a class *)

(** X15. [POST /create] adds at most one class and changes no other.
    Whatever the request, the students, the quizzes and every class stored
    before are unchanged after it; and a class that is there after and was
    not before is the one the request made for a caller with the role of a
    teacher: under the new [_id], named as asked with a name that is not
    empty, owned by the caller, without students and without quizzes. *)
Theorem post_create_adds_one_owned_class
    (env : Env) (user : option Principal) (name : string) (w : World) :
  let w' := snd (serve (post_create env user name) w) in
  Students w' = Students w
  /\ Quizzes w' = Quizzes w
  /\ (forall i c, Classes w !! i = Some c -> Classes w' !! i = Some c)
  /\ (forall i c, Classes w !! i = None -> Classes w' !! i = Some c ->
        exists p, user = Some p /\ role p = "teacher"
                  /\ i = new_ObjectId env /\ name <> ""
                  /\ c = {| c_id := i; class_name := name;
                            teacher_id := id p; students := [];
                            quizzes := [] |}).
Proof.
  cbv zeta.
  assert (Hsame : forall w', Classes w' = Classes w ->
            Students w' = Students w -> Quizzes w' = Quizzes w ->
            Students w' = Students w
            /\ Quizzes w' = Quizzes w
            /\ (forall i c, Classes w !! i = Some c -> Classes w' !! i = Some c)
            /\ (forall i c, Classes w !! i = None -> Classes w' !! i = Some c ->
                  exists p, user = Some p /\ role p = "teacher"
                            /\ i = new_ObjectId env /\ name <> ""
                            /\ c = {| c_id := i; class_name := name;
                                      teacher_id := id p; students := [];
                                      quizzes := [] |})).
  { intros w' H1 H2 H3. rewrite H1. repeat split; auto. congruence. }
  exec. destruct user as [p|]; simpl; [|by apply Hsame].
  destruct (String.eqb_spec (role p) "teacher") as [Hr|Hr]; simpl;
    [|by apply Hsame].
  unfold required_string.
  destruct (String.eqb_spec name "") as [Hn|Hn]; simpl; [by apply Hsame|].
  destruct (Classes w !! new_ObjectId env) eqn:Hfree; simpl;
    [by apply Hsame|].
  destruct (class_write_ok env); simpl; [|by apply Hsame].
  repeat split.
  - intros i c Hi. rewrite lookup_insert_ne; [done | congruence].
  - intros i c Hi. destruct (decide (new_ObjectId env = i)) as [<-|Hne].
    + rewrite lookup_insert_eq. intros [= <-]. exists p. by repeat split.
    + rewrite lookup_insert_ne by done. congruence.
Qed.

(** X16. The creator of a class is its owner.  After a creation that
    succeeded, the creator's add of an existing student is accepted and
    the class lists exactly that student, while the same add by any other
    teacher is refused as not the teacher of the class. *)
Theorem created_class_belongs_to_its_creator
    (env env' : Env) (p other : Principal) (name : string)
    (studentId : ObjectId) (w : World) (s : StudentDoc) (c : ClassDoc) :
  role p = "teacher" ->
  fst (serve (post_create env (Some p) name) w)
    = inr ("Class created successfully", c) ->
  Students w !! studentId = Some s ->
  class_write_ok env' = true ->
  let w1 := snd (serve (post_create env (Some p) name) w) in
  (exists w2,
     route (post_add_student env' (Some p) (c_id c) studentId) w1 = (Added, w2)
     /\ students <$> Classes w2 !! c_id c = Some [s_id s])
  /\ (role other = "teacher" -> id other <> id p ->
      route (post_add_student env' (Some other) (c_id c) studentId) w1
      = (NotOwner, w1)).
Proof.
  intros Hr Hok Hs Hw'. cbv zeta. revert Hok. exec. rewrite Hr. simpl.
  destruct (required_string name) eqn:Hname; simpl; [|discriminate].
  destruct (Classes w !! new_ObjectId env); simpl; [discriminate|].
  destruct (class_write_ok env); simpl; [|discriminate].
  intros [= <-]. simpl. rewrite lookup_insert_eq. simpl.
  rewrite N.eqb_refl. simpl. rewrite Hs. simpl.
  assert (Class_valid (set_students (push [] (s_id s))
                                    (new_Class env name (id p))) = true) as ->.
  { unfold Class_valid. simpl. now rewrite Hname. }
  simpl. rewrite Hw'. simpl.
  split.
  - eexists. split; [reflexivity|]. simpl. now rewrite lookup_insert_eq.
  - intros Ho Hne. rewrite Ho. simpl. rewrite lookup_insert_eq. simpl.
    assert ((id p =? id other)%N = false) as ->; [|done].
    apply N.eqb_neq. congruence.
Qed.

(** ** The students of a class *)

(** The loop of the student listing, run on a world. *)
Lemma for_each_student (w : World) (l : list ObjectId) :
  for_each
    (fun studentId =>
       student ← Student_findById studentId;
       match student with
       | Some student => mret (student_info student)
       | None => throw TypeError
       end) l w
  = match mapM (fun i => Students w !! i) l with
    | Some docs => Next (map student_info docs) w
    | None => Throw TypeError w
    end.
Proof.
  induction l as [|i l IH]; [reflexivity|].
  cbn [for_each]. unfold mbind at 1, Handler_bind at 1.
  unfold mbind at 1, Handler_bind at 1, Student_findById at 1.
  cbn [mapM]. destruct (Students w !! i) as [s|]; simpl; [|reflexivity].
  unfold mbind at 1, Handler_bind at 1. rewrite IH.
  destruct (mapM _ l); reflexivity.
Qed.

(** What a teacher or a student gets from the student listing. *)
Lemma get_students_any
    (p : Principal) (classId : ObjectId) (w : World) (c : ClassDoc) :
  role p = "teacher" \/ role p = "student" ->
  Classes w !! classId = Some c ->
  serve (get_students (Some p) classId) w
  = match mapM (fun i => Students w !! i) (students c) with
    | Some docs => (inr (map student_info docs), w)
    | None => (inl Internal, logged TypeError w)
    end.
Proof.
  intros Hr Hc.
  assert (Hrole : negb (role p =? "teacher")%string
                  && negb (role p =? "student")%string = false).
  { destruct Hr as [-> | ->]; reflexivity. }
  unfold serve, get_students. rewrite Hrole.
  unfold mbind, Handler_bind, Class_findById. rewrite Hc.
  rewrite for_each_student. destruct (mapM _ _); reflexivity.
Qed.


(** X18. One missing student breaks the listing.  For a teacher or a
    student and a class that exists, [GET /:classId/students] answers 500
    exactly when some id in [students] of the class has no document. *)
Theorem get_students_fails_on_a_missing_student
    (p : Principal) (classId : ObjectId) (w : World) (c : ClassDoc) :
  role p = "teacher" \/ role p = "student" ->
  Classes w !! classId = Some c ->
  fst (serve (get_students (Some p) classId) w) = inl Internal
  <-> exists i, In i (students c) /\ Students w !! i = None.
Proof.
  intros Hr Hc. rewrite (get_students_any p classId w c Hr Hc).
  destruct (mapM (fun i => Students w !! i) (students c)) as [docs|] eqn:Hm.
  - split; [discriminate|]. intros (i & Hi & Hnone).
    apply mapM_Some in Hm. apply list_elem_of_In in Hi.
    apply list_elem_of_lookup in Hi as [k Hk].
    destruct (Forall2_lookup_l _ _ _ _ _ Hm Hk) as (s & _ & Hs). congruence.
  - split; [|done]. intros _.
    apply mapM_None, Exists_exists in Hm as (i & Hi & Hnone).
    exists i. split; [now apply list_elem_of_In | done].
Qed.

(** X19. Whoever joins is listed.  After a join that answered "Student
    joined the class successfully", in a class whose students all had their
    documents, the student listing of the class is the listing of before
    the join followed by the entry of the one who joined. *)
Theorem joined_student_is_listed
    (env : Env) (p m : Principal) (classId : ObjectId) (w w1 : World)
    (c : ClassDoc) (s : StudentDoc) :
  role p = "student" ->
  Classes w !! classId = Some c ->
  c_id c = classId ->
  Students w !! id p = Some s ->
  s_id s = id p ->
  (forall i, In i (students c) -> is_Some (Students w !! i)) ->
  route (post_join env (Some p) classId) w = (Joined, w1) ->
  role m = "teacher" \/ role m = "student" ->
  exists l,
    serve (get_students (Some m) classId) w = (inr l, w)
    /\ serve (get_students (Some m) classId) w1
       = (inr (l ++ [student_info s])%list, w1).
Proof.
  intros Hr Hc Hid Hs Hsid Hall Hj Hm.
  destruct (post_join_joined env p classId w w1 c s Hr Hc Hs Hj) as [_ ->].
  rewrite Hid.
  rewrite (get_students_any m classId w c Hm Hc).
  rewrite (get_students_any m classId _
             (set_students (push (students c) (s_id s)) c) Hm)
    by apply lookup_insert_eq.
  simpl. unfold push.
  destruct (mapM (fun i => Students w !! i) (students c)) as [docs|] eqn:Hd.
  2:{ apply mapM_None, Exists_exists in Hd as (i & Hi & Hnone).
      apply list_elem_of_In, Hall in Hi. rewrite Hnone in Hi.
      now destruct Hi. }
  assert (mapM (fun i => Students w !! i) (students c ++ [s_id s])%list
          = Some (docs ++ [s])%list) as ->.
  { apply mapM_Some. apply Forall2_app; [now apply mapM_Some|].
    constructor; [|constructor]. now rewrite Hsid. }
  exists (map student_info docs). split; [done|]. now rewrite map_app.
Qed.

(** ** The classes of a user *)

(** A loop whose body only reads: it gives the results of the body, or
    throws where the body first throws. *)
Lemma for_each_reads {A B} (f : A -> Handler B) (g : A -> option B)
    (w : World) (l : list A) :
  (forall x, f x w = match g x with
                     | Some y => Next y w
                     | None => Throw TypeError w
                     end) ->
  for_each f l w
  = match mapM g l with
    | Some ys => Next ys w
    | None => Throw TypeError w
    end.
Proof.
  intros Hf. induction l as [|x l IH]; [reflexivity|].
  cbn [for_each mapM]. unfold mbind at 1, Handler_bind at 1. rewrite Hf.
  destruct (g x) as [y|]; simpl; [|reflexivity].
  unfold mbind at 1, Handler_bind at 1. rewrite IH.
  destruct (mapM g l); reflexivity.
Qed.

(** What a teacher or a student gets from the class listing. *)
Lemma get_classes_any
    (Teachers : gmap ObjectId TeacherDoc) (p : Principal) (w : World) :
  role p = "teacher" \/ role p = "student" ->
  serve (get_classes Teachers (Some p)) w
  = match mapM (class_entry Teachers)
               (List.filter (listed_for p) (map snd (map_to_list (Classes w))))
    with
    | Some entries => (inr entries, w)
    | None => (inl Internal, logged TypeError w)
    end.
Proof.
  intros Hr. unfold serve, get_classes.
  assert (Hl : listed_for p
               = if (role p =? "teacher")%string
                 then fun c => (teacher_id c =? id p)%N
                 else fun c => includes (students c) (id p)).
  { unfold listed_for. now destruct (role p =? "teacher")%string. }
  rewrite Hl.
  assert (Hs : (role p =? "teacher")%string = false ->
               (role p =? "student")%string = true).
  { destruct Hr as [-> | ->]; [discriminate | reflexivity]. }
  destruct (role p =? "teacher")%string; [|rewrite (Hs eq_refl)];
    unfold mbind, Handler_bind, Class_find, mret, Handler_ret;
    cbn beta iota;
    rewrite (for_each_reads _ (class_entry Teachers))
      by (intros cls; unfold Teacher_findById, class_entry;
          now destruct (Teachers !! teacher_id cls));
    destruct (mapM _ _); reflexivity.
Qed.

Lemma class_entries_objects
    (Teachers : gmap ObjectId TeacherDoc) (l : list ClassDoc)
    (entries : list Entry.t) :
  mapM (class_entry Teachers) l = Some entries ->
  map Entry.classObject entries = l
  /\ forall e, In e entries ->
       exists t, Teachers !! teacher_id (Entry.classObject e) = Some t
                 /\ Entry.teacher e = teacher_object t.
Proof.
  intros H. apply mapM_Some in H.
  induction H as [|cls e l entries He _ [IH1 IH2]]; [by split|].
  unfold class_entry in He.
  destruct (Teachers !! teacher_id cls) as [t|] eqn:Ht; [|discriminate].
  injection He as <-. split.
  - simpl. now rewrite IH1.
  - intros e [<-|Hin]; [simpl; eauto | now apply IH2].
Qed.

(** X20. The class listing is the classes of the caller.  When the teacher
    of every selected class has a document, [GET /] gives a teacher exactly
    the classes whose [teacher_id] is the caller and gives a student exactly
    the classes whose [students] hold the caller, each with the object of
    its teacher, and writes nothing. *)
Theorem get_classes_lists_the_callers_classes
    (Teachers : gmap ObjectId TeacherDoc) (p : Principal) (w : World) :
  role p = "teacher" \/ role p = "student" ->
  (forall i c, Classes w !! i = Some c -> listed_for p c = true ->
               is_Some (Teachers !! teacher_id c)) ->
  exists l,
    serve (get_classes Teachers (Some p)) w = (inr l, w)
    /\ (forall e, In e l ->
          exists t, Teachers !! teacher_id (Entry.classObject e) = Some t
                    /\ Entry.teacher e = teacher_object t)
    /\ (forall c, In c (map Entry.classObject l) <->
          exists i, Classes w !! i = Some c
                    /\ if (role p =? "teacher")%string
                       then teacher_id c = id p
                       else In (id p) (students c)).
Proof.
  intros Hr Hall. rewrite (get_classes_any Teachers p w Hr).
  destruct (mapM _ _) as [entries|] eqn:Hm.
  - destruct (class_entries_objects _ _ _ Hm) as [Hobj Ht].
    exists entries. split; [done|]. split; [exact Ht|].
    intros c. rewrite Hobj, elem_of_find. unfold listed_for.
    destruct (role p =? "teacher")%string.
    + split; intros (i & Hi & Hc); exists i; (split; [done|]);
        now apply N.eqb_eq.
    + split; intros (i & Hi & Hc); exists i; (split; [done|]);
        now apply includes_In.
  - apply mapM_None, Exists_exists in Hm as (c & Hc & Hnone).
    apply list_elem_of_In, elem_of_find in Hc as (i & Hi & Hl).
    destruct (Hall i c Hi Hl) as [t Ht].
    unfold class_entry in Hnone. now rewrite Ht in Hnone.
Qed.

(** X21. A class whose teacher has no document breaks the listing of
    everyone it is listed for, and a caller with neither role always gets
    500.  For a teacher or a student, [GET /] answers 500 exactly when one
    of the classes selected for the caller names a teacher without
    document; for any other role it answers 500 whatever is stored; without
    a user it answers 404. *)
Theorem get_classes_failures
    (Teachers : gmap ObjectId TeacherDoc) (p : Principal) (w : World) :
  (role p = "teacher" \/ role p = "student" ->
     fst (serve (get_classes Teachers (Some p)) w) = inl Internal
     <-> exists i c, Classes w !! i = Some c /\ listed_for p c = true
                     /\ Teachers !! teacher_id c = None)
  /\ (role p <> "teacher" -> role p <> "student" ->
      serve (get_classes Teachers (Some p)) w
      = (inl Internal, logged TypeError w))
  /\ serve (get_classes Teachers None) w = (inl UserNotFound, w).
Proof.
  split; [|split].
  - intros Hr. rewrite (get_classes_any Teachers p w Hr).
    destruct (mapM _ _) as [entries|] eqn:Hm.
    + split; [discriminate|]. intros (i & c & Hi & Hl & Hnone).
      apply mapM_Some in Hm.
      assert (Hin : c ∈ List.filter (listed_for p)
                          (map snd (map_to_list (Classes w)))).
      { apply list_elem_of_In, elem_of_find. eauto. }
      apply list_elem_of_lookup in Hin as [k Hk].
      destruct (Forall2_lookup_l _ _ _ _ _ Hm Hk) as (e & _ & He).
      unfold class_entry in He. now rewrite Hnone in He.
    + split; [|done]. intros _.
      apply mapM_None, Exists_exists in Hm as (c & Hc & Hnone).
      apply list_elem_of_In, elem_of_find in Hc as (i & Hi & Hl).
      exists i, c. split; [done|]. split; [done|].
      unfold class_entry in Hnone.
      now destruct (Teachers !! teacher_id c).
  - intros Ht Hs. exec.
    now rewrite (role_is_not _ _ Ht), (role_is_not _ _ Hs).
  - reflexivity.
Qed.

(** X22. A class shows in the listing of whoever joined it, though the
    join leaves the student's own document as it was.  After a join that
    answered "Student joined the class successfully", if the teachers of
    the student's classes have their documents, [GET /] of that student
    holds the class of the join with the student among its [students],
    while the [Student] collection is the one before the join. *)
Theorem joined_class_is_listed
    (Teachers : gmap ObjectId TeacherDoc) (env : Env) (p : Principal)
    (classId : ObjectId) (w w1 : World) (c : ClassDoc) (s : StudentDoc) :
  role p = "student" ->
  Classes w !! classId = Some c ->
  c_id c = classId ->
  Students w !! id p = Some s ->
  s_id s = id p ->
  route (post_join env (Some p) classId) w = (Joined, w1) ->
  (forall i c', Classes w1 !! i = Some c' -> listed_for p c' = true ->
                is_Some (Teachers !! teacher_id c')) ->
  Students w1 = Students w
  /\ exists l e,
       serve (get_classes Teachers (Some p)) w1 = (inr l, w1)
       /\ In e l
       /\ c_id (Entry.classObject e) = classId
       /\ In (id p) (students (Entry.classObject e)).
Proof.
  intros Hr Hc Hid Hs Hsid Hj Hall.
  destruct (post_join_joined env p classId w w1 c s Hr Hc Hs Hj) as [_ ->].
  split; [reflexivity|].
  set (w1 := set_Classes _ w) in *.
  set (c1 := set_students (push (students c) (s_id s)) c).
  assert (Hc1 : Classes w1 !! classId = Some c1).
  { subst w1. simpl. rewrite Hid. apply lookup_insert_eq. }
  assert (Hl1 : listed_for p c1 = true).
  { unfold listed_for. rewrite Hr. simpl. rewrite <- Hsid.
    apply includes_push. }
  rewrite (get_classes_any Teachers p w1 (or_intror Hr)).
  destruct (mapM _ _) as [entries|] eqn:Hm.
  - destruct (class_entries_objects _ _ _ Hm) as [Hobj _].
    assert (Hin : In c1 (map Entry.classObject entries)).
    { rewrite Hobj. apply elem_of_find. eauto. }
    apply in_map_iff in Hin as (e & He & Hin).
    exists entries, e. split; [done|]. split; [done|]. rewrite He.
    split; [exact Hid|]. simpl. rewrite <- Hsid.
    apply includes_In, includes_push.
  - apply mapM_None, Exists_exists in Hm as (c' & Hc' & Hnone).
    apply list_elem_of_In, elem_of_find in Hc' as (i & Hi & Hl).
    destruct (Hall i c' Hi Hl) as [t Ht].
    unfold class_entry in Hnone. now rewrite Ht in Hnone.
Qed.

(** ** The token check *)

Lemma split_without_separator (sep : Ascii.ascii) (s : string) :
  ~ In sep (list_ascii_of_string s) -> split sep s = [s].
Proof.
  induction s as [|ch s IH]; [reflexivity|]. simpl. intros Hno.
  destruct (Ascii.eqb_spec ch sep) as [->|Hne]; [tauto|].
  rewrite IH by tauto. reflexivity.
Qed.

(** X23. The token check lets through only users that exist.  When
    [authenticateToken] calls [next()], nothing has been written, the
    header had a second part that is not empty and that [jwt.verify]
    accepted, [req.user] is the payload of that token, and the role of the
    payload is "teacher" with a teacher under its id, or "student" with a
    student under its id. *)
Theorem authenticateToken_admits_existing_users
    (verify : string -> Error + Principal)
    (Teachers : gmap ObjectId TeacherDoc) (authorization : option string)
    (w w' : World) (p : Principal) :
  serve (authenticateToken verify Teachers authorization) w = (inr p, w') ->
  w' = w
  /\ (exists header token,
        authorization = Some header
        /\ split Ascii.Space header !! 1%nat = Some token
        /\ token <> ""
        /\ verify token = inr p)
  /\ ((role p = "teacher" /\ is_Some (Teachers !! id p))
      \/ (role p = "student" /\ is_Some (Students w !! id p))).
Proof.
  exec. destruct authorization as [header|]; simpl; [|discriminate].
  destruct (split Ascii.Space header !! 1%nat) as [token|] eqn:Ht; simpl;
    [|discriminate].
  destruct token as [|ch token]; simpl; [discriminate|].
  destruct (verify (String ch token)) as [e|d] eqn:Hv; simpl.
  { destruct e; discriminate. }
  destruct (String.eqb_spec (role d) "teacher") as [Hr|Hr]; simpl.
  - destruct (Teachers !! id d) as [t|] eqn:Hd; simpl; [|discriminate].
    intros [= <- <-]. split; [done|]. split; [|left; eauto].
    exists header, (String ch token). by repeat split.
  - destruct (String.eqb_spec (role d) "student") as [Hs|Hs]; simpl;
      [|discriminate].
    destruct (Students w !! id d) as [s|] eqn:Hd; simpl; [|discriminate].
    intros [= <- <-]. split; [done|]. split; [|right; eauto].
    exists header, (String ch token). by repeat split.
Qed.

(** X24. What the token check refuses, and how.  Without the header it
    answers 500; with a header that has no space, 401 "Authentication
    token missing"; for a token that [jwt.verify] rejects with a
    [JsonWebTokenError], 401 "Invalid token", and with any other error,
    500; for a payload whose role is neither "teacher" nor "student", or
    whose id has no document in the collection of its role, 404.  No
    collection is written. *)
Theorem authenticateToken_refusals
    (verify : string -> Error + Principal)
    (Teachers : gmap ObjectId TeacherDoc) (w : World) :
  serve (authenticateToken verify Teachers None) w
    = (inl Internal, logged TypeError w)
  /\ (forall header,
        ~ In Ascii.Space (list_ascii_of_string header) ->
        serve (authenticateToken verify Teachers (Some header)) w
        = (inl TokenMissing, w))
  /\ (forall header token,
        split Ascii.Space header !! 1%nat = Some token -> token <> "" ->
        let r := serve (authenticateToken verify Teachers (Some header)) w in
        (verify token = inl JsonWebTokenError -> r = (inl InvalidToken, w))
        /\ (forall e, e <> JsonWebTokenError -> verify token = inl e ->
              r = (inl Internal, logged e w))
        /\ (forall d, verify token = inr d ->
              (role d <> "teacher" /\ role d <> "student")
              \/ (role d = "teacher" /\ Teachers !! id d = None)
              \/ (role d = "student" /\ Students w !! id d = None) ->
              r = (inl UserNotFound, w))).
Proof.
  split; [reflexivity|]. split.
  - intros header Hno. exec. simpl.
    now rewrite (split_without_separator _ _ Hno).
  - intros header token Ht Hne. cbv zeta. exec. simpl. rewrite Ht.
    destruct token as [|ch token]; [done|]. repeat split.
    + now intros ->.
    + intros e He ->. now destruct e.
    + intros d -> [[Hr Hs]|[[Hr Hd]|[Hr Hd]]]; simpl.
      * now rewrite (role_is_not _ _ Hr), (role_is_not _ _ Hs).
      * now rewrite (role_is _ _ Hr), Hd.
      * rewrite Hr. simpl. now rewrite Hd.
Qed.

(** X25. Behind the token check a student's join cannot fail on the
    student.  For a [req.user] that [authenticateToken] let through with
    the role of a student, [POST /join] to a class that exists and whose
    document validates, on storage that accepts the write, answers "Student
    joined the class successfully" or "Student already in the class", never
    500. *)
Theorem admitted_student_can_join
    (verify : string -> Error + Principal)
    (Teachers : gmap ObjectId TeacherDoc) (authorization : option string)
    (env : Env) (classId : ObjectId) (w w' : World) (p : Principal)
    (c : ClassDoc) :
  serve (authenticateToken verify Teachers authorization) w = (inr p, w') ->
  role p = "student" ->
  Classes w !! classId = Some c ->
  Class_valid c = true ->
  class_write_ok env = true ->
  fst (route (post_join env (Some p) classId) w') = Joined
  \/ fst (route (post_join env (Some p) classId) w') = AlreadyMember.
Proof.
  intros Hadm Hr Hc Hv Hw.
  assert (Hs : w' = w /\ is_Some (Students w !! id p)).
  { revert Hadm. exec.
    destruct authorization as [header|]; simpl; [|discriminate].
    destruct (split Ascii.Space header !! 1%nat) as [[|ch token]|]; simpl;
      try discriminate.
    destruct (verify (String ch token)) as [e|d]; simpl.
    { destruct e; discriminate. }
    destruct (String.eqb_spec (role d) "teacher") as [Ht|Ht]; simpl.
    - destruct (Teachers !! id d); simpl; [|discriminate].
      intros [= <- <-]. rewrite Ht in Hr. discriminate.
    - destruct (role d =? "student")%string; simpl; [|discriminate].
      destruct (Students w !! id d) eqn:Hd; simpl; [|discriminate].
      intros [= <- <-]. rewrite Hd. eauto. }
  destruct Hs as [-> [s Hs]].
  exec. rewrite Hr. simpl. rewrite Hc, Hs. simpl.
  destruct (includes (students c) (s_id s)); simpl; [by right|].
  rewrite Class_valid_set_students, Hv, Hw. by left.
Qed.

(** ** The further properties at the sample data *)

Lemma sample_world_keyed : keyed sample_world.
Proof. split; apply (bool_decide_unpack _); vm_compute; exact I. Qed.

Lemma sample_world_no_duplicates : no_duplicates sample_world.
Proof. apply (bool_decide_unpack _); vm_compute; exact I. Qed.

Lemma sample_class_stored : Classes sample_world !! 1%N = Some sample_class.
Proof. vm_compute; reflexivity. Qed.

Lemma sample_quiz_stored : Quizzes sample_world !! 5%N = Some sample_quiz.
Proof. vm_compute; reflexivity. Qed.

(** A student is refused the add, and so is the teacher of class 2 on
    class 1; the teacher of class 1 is told when the student is unknown. *)
Lemma post_add_student_refusals_witness :
  route (post_add_student (env_at 0) (Some the_student) 1%N 21%N) sample_world
    = (NotTeacher, sample_world)
  /\ route (post_add_student (env_at 0) (Some the_teacher) 8%N 21%N)
           sample_world
     = (ClassNotFound, sample_world)
  /\ route (post_add_student (env_at 0) (Some another_teacher) 1%N 21%N)
           sample_world
     = (NotOwner, sample_world)
  /\ route (post_add_student (env_at 0) (Some the_teacher) 1%N 77%N)
           sample_world
     = (StudentNotFound, sample_world).
Proof.
  split; [|split; [|split]].
  - apply (proj1 (post_add_student_refusals (env_at 0) the_student 1%N 21%N
                    sample_world)). discriminate.
  - apply (proj1 (proj2 (post_add_student_refusals (env_at 0) the_teacher
                           8%N 21%N sample_world)));
      [reflexivity | vm_compute; reflexivity].
  - apply (proj1 (proj2 (proj2 (post_add_student_refusals (env_at 0)
                           another_teacher 1%N 21%N sample_world)))
             sample_class);
      [reflexivity | exact sample_class_stored | discriminate].
  - apply (proj2 (proj2 (proj2 (post_add_student_refusals (env_at 0)
                           the_teacher 1%N 77%N sample_world)))
             sample_class);
      [reflexivity | exact sample_class_stored | reflexivity
      | vm_compute; reflexivity].
Defined.

(** A teacher is refused the join; a student is told when the class is
    unknown; a student without document gets 500. *)
Lemma post_join_refusals_witness :
  route (post_join (env_at 0) (Some the_teacher) 1%N) sample_world
    = (NotStudent, sample_world)
  /\ route (post_join (env_at 0) (Some the_student) 8%N) sample_world
     = (ClassNotFound, sample_world)
  /\ route (post_join (env_at 0) (Some {| id := 99%N; role := "student" |})
                      1%N) sample_world
     = (Internal, logged TypeError sample_world).
Proof.
  split; [|split].
  - apply (proj1 (post_join_refusals (env_at 0) the_teacher 1%N sample_world)).
    discriminate.
  - apply (proj1 (proj2 (post_join_refusals (env_at 0) the_student 8%N
                           sample_world)));
      [reflexivity | vm_compute; reflexivity].
  - apply (proj2 (proj2 (post_join_refusals (env_at 0)
                           {| id := 99%N; role := "student" |} 1%N
                           sample_world)) sample_class);
      [reflexivity | exact sample_class_stored | vm_compute; reflexivity].
Defined.

(** The newcomer's join and the teacher's add of the newcomer on the
    sample world. *)
Lemma membership_only_grows_witness :
  keyed sample_world
  /\ membership_extended sample_world
       (snd (route (post_add_student (env_at 0) (Some the_teacher) 1%N 21%N)
                   sample_world))
  /\ membership_extended sample_world
       (snd (route (post_join (env_at 0) (Some the_newcomer) 1%N)
                   sample_world)).
Proof.
  split; [exact sample_world_keyed|].
  split.
  - exact (proj1 (membership_only_grows (env_at 0) (Some the_teacher) 1%N 21%N
                    sample_world sample_world_keyed)).
  - exact (proj2 (membership_only_grows (env_at 0) (Some the_newcomer) 1%N 21%N
                    sample_world sample_world_keyed)).
Defined.

Lemma post_join_keeps_no_duplicates_witness :
  no_duplicates sample_world
  /\ no_duplicates (snd (route (post_join (env_at 0) (Some the_newcomer) 1%N)
                               sample_world)).
Proof.
  split; [exact sample_world_no_duplicates|].
  exact (post_join_keeps_no_duplicates (env_at 0) (Some the_newcomer) 1%N
           sample_world sample_world_no_duplicates).
Defined.

(** The teacher adds the newcomer, whose join then changes nothing; the
    newcomer joins, and the teacher's add then lists the newcomer twice. *)
Lemma add_student_and_join_compose_witness :
  Class_valid sample_class = true
  /\ (let w1 := snd (route (post_add_student (env_at 0) (Some the_teacher) 1%N
                                          (id the_newcomer)) sample_world) in
      route (post_join (env_at 1) (Some the_newcomer) 1%N) w1
      = (AlreadyMember, w1))
  /\ (let w1 := snd (route (post_join (env_at 0) (Some the_newcomer) 1%N)
                           sample_world) in
      let w2 := snd (route (post_add_student (env_at 1) (Some the_teacher) 1%N
                                             (id the_newcomer)) w1) in
      exists c2, Classes w2 !! 1%N = Some c2
                 /\ memberships c2 (s_id new_student) = 2%nat).
Proof.
  assert (Hn : Students sample_world !! id the_newcomer = Some new_student)
    by (vm_compute; reflexivity).
  pose proof (add_student_and_join_compose (env_at 0) (env_at 1) the_teacher
                the_newcomer 1%N sample_world sample_class new_student
                eq_refl eq_refl sample_class_stored eq_refl eq_refl Hn
                eq_refl eq_refl eq_refl) as [H1 H2].
  split; [reflexivity|]. split; [exact H1 | exact (H2 eq_refl)].
Defined.

(** The owner overwrites quiz 5 on the sample world. *)
Lemma patch_quiz_touches_one_quiz_witness :
  let b := sample_body (raw_number (sample_start + 1)) in
  let w' := snd (route (patch_quiz (env_at sample_start) (Some the_teacher)
                                   1%N 5%N b) sample_world) in
  keyed sample_world
  /\ Classes w' = Classes sample_world
  /\ Students w' = Students sample_world
  /\ Quizzes w' !! 7%N = Some other_quiz
  /\ Quizzes w' !! 5%N = Some (assign_body b sample_quiz).
Proof.
  intros b w'.
  pose proof (patch_quiz_touches_one_quiz (env_at sample_start)
                (Some the_teacher) 1%N 5%N b sample_world sample_world_keyed)
    as (H1 & H2 & H3 & _ & _).
  split; [exact sample_world_keyed|]. split; [exact H1|]. split; [exact H2|].
  split.
  - refine (eq_trans (H3 7%N _) _); [discriminate | vm_compute; reflexivity].
  - vm_compute; reflexivity.
Defined.

(** The quiz the owner creates on the sample world, with a start sent as a
    number, is valid and starts one millisecond after the request. *)
Lemma written_quizzes_are_valid_and_tested_witness :
  let env := env_at sample_start in
  let b := sample_body (raw_number (sample_start + 1)) in
  let w' := snd (route (post_quizzes env (Some the_teacher) 1%N b)
                       sample_world) in
  Quizzes w' !! 9%N = Some (new_Quiz env 1%N b)
  /\ Quizzes sample_world !! 9%N = None
  /\ Quiz_valid (new_Quiz env 1%N b) = true
  /\ start_date (new_Quiz env 1%N b) = Some (sample_start + 1)
  /\ now env < sample_start + 1.
Proof.
  intros env b w'.
  assert (Hq : Quizzes w' !! 9%N = Some (new_Quiz env 1%N b))
    by (vm_compute; reflexivity).
  assert (Hfree : Quizzes sample_world !! 9%N = None)
    by (vm_compute; reflexivity).
  split; [exact Hq|]. split; [exact Hfree|].
  destruct (written_quizzes_are_valid_and_tested env (Some the_teacher) 1%N
              5%N b sample_world w' (or_introl eq_refl) 9%N
              (new_Quiz env 1%N b) Hq) as [Hold | (Hv & _ & Ht)].
  - rewrite Hfree in Hold. discriminate Hold.
  - split; [exact Hv|]. exact (Ht (sample_start + 1) eq_refl).
Defined.

Lemma post_quizzes_never_overwrites_witness :
  let w' := snd (route (post_quizzes (env_at sample_start) (Some the_teacher)
                          1%N (sample_body (raw_number (sample_start + 1))))
                       sample_world) in
  keyed sample_world
  /\ Quizzes w' !! 5%N = Some sample_quiz
  /\ Students w' = Students sample_world
  /\ exists c', Classes w' !! 1%N = Some c'
                /\ teacher_id c' = teacher_id sample_class
                /\ students c' = students sample_class.
Proof.
  intros w'.
  pose proof (post_quizzes_never_overwrites (env_at sample_start)
                (Some the_teacher) 1%N (sample_body (raw_number (sample_start + 1)))
                sample_world sample_world_keyed) as (H1 & H2 & H3).
  split; [exact sample_world_keyed|].
  split; [exact (H1 5%N sample_quiz sample_quiz_stored)|].
  split; [exact H2|].
  exact (H3 1%N sample_class sample_class_stored).
Defined.

(** The owner creates a quiz, its start sent as a date text, and reads it
    back a year later; the enrolled student asks at the instant of the
    creation. *)
Lemma created_quiz_can_be_read_witness :
  let env := env_at sample_start in
  let b := sample_body (raw_text (sample_start + 3600000)) in
  let w1 := snd (route (post_quizzes env (Some the_teacher) 1%N b)
                       sample_world) in
  Quizzes sample_world !! new_ObjectId env = None
  /\ route (get_quiz (env_at (sample_start + 31536000000)) (Some the_teacher)
                     1%N 9%N) w1
     = (Full (new_Quiz env 1%N b), w1)
  /\ route (get_quiz env (Some the_student) 1%N 9%N) w1 = (NotStarted, w1).
Proof.
  intros env b w1.
  assert (Hfree : Quizzes sample_world !! new_ObjectId env = None)
    by (vm_compute; reflexivity).
  pose proof (created_quiz_can_be_read env the_teacher 1%N b sample_world
                sample_class eq_refl sample_class_stored
                eq_refl eq_refl eq_refl Hfree eq_refl) as [H1 H2].
  split; [exact Hfree|]. split.
  - exact (H1 (env_at (sample_start + 31536000000))).
  - refine (H2 (sample_start + 3600000) env the_student eq_refl eq_refl
               eq_refl _). simpl. lia.
Defined.

(** The newcomer is in no class: both reads of class 1 are refused. *)
Lemma quiz_reads_are_for_members_witness :
  teacher_id sample_class <> id the_newcomer
  /\ includes (students sample_class) (id the_newcomer) = false
  /\ route (get_quiz (env_at sample_start) (Some the_newcomer) 1%N 5%N)
           sample_world
     = (NotAuthorizedQuiz, sample_world)
  /\ serve (get_quizzes (Some the_newcomer) 1%N) sample_world
     = (inl NotAuthorizedQuizzes, sample_world)
  /\ route (get_quiz (env_at sample_start) (Some the_janitor) 1%N 5%N)
           sample_world
     = (Forbidden, sample_world).
Proof.
  assert (Ho : teacher_id sample_class <> id the_newcomer) by discriminate.
  pose proof (quiz_reads_are_for_members (env_at sample_start) the_newcomer
                1%N 5%N sample_world) as [_ H].
  destruct (H sample_class (or_intror eq_refl) sample_class_stored Ho eq_refl)
    as [H1 H2].
  pose proof (quiz_reads_are_for_members (env_at sample_start) the_janitor
                1%N 5%N sample_world) as [Hj _].
  assert (Hjt : role the_janitor <> "teacher") by discriminate.
  assert (Hjs : role the_janitor <> "student") by discriminate.
  split; [exact Ho|]. split; [reflexivity|]. split; [exact H1|].
  split; [exact H2|]. exact (proj1 (Hj Hjt Hjs)).
Defined.

(** One millisecond before quiz 5 starts the enrolled student gets no
    flag. *)
Lemma student_outside_window_gets_no_content_witness :
  now (env_at (sample_start - 1)) < sample_start
  /\ exposed_flags (fst (route (get_quiz (env_at (sample_start - 1))
                                         (Some the_student) 1%N 5%N)
                               sample_world)) = None.
Proof.
  assert (Ht : now (env_at (sample_start - 1)) < sample_start)
    by (simpl; lia).
  split; [exact Ht|].
  exact (student_outside_window_gets_no_content (env_at (sample_start - 1))
           the_student 1%N 5%N sample_world sample_quiz sample_start
           eq_refl sample_quiz_stored eq_refl (or_introl Ht)).
Defined.


(** The owner creates a quiz on storage that accepts every write: the
    student finds the quiz in the listing, and the classes are as before. *)
Lemma created_quiz_is_listed_witness :
  let env := env_at sample_start in
  let b := sample_body (raw_number (sample_start + 1)) in
  let w1 := snd (route (post_quizzes env (Some the_teacher) 1%N b)
                       sample_world) in
  class_write_ok env = true
  /\ exists l, serve (get_quizzes (Some the_student) 1%N) w1 = (inr l, w1)
               /\ In (quiz_summary (new_Quiz env 1%N b)) l
               /\ Classes w1 = Classes sample_world.
Proof.
  intros env b w1.
  assert (Hfree : Quizzes sample_world !! new_ObjectId env = None)
    by (vm_compute; reflexivity).
  destruct (created_quiz_is_listed env the_teacher the_student 1%N b
              sample_world sample_class sample_world_keyed eq_refl
              sample_class_stored eq_refl eq_refl eq_refl Hfree eq_refl
              (or_intror eq_refl) (or_intror eq_refl))
    as (l & Hl & Hin & Hc).
  split; [reflexivity|]. exists l.
  split; [exact Hl|]. split; [exact Hin | exact Hc].
Defined.

(** The teacher of class 1 creates "Physics": classes 1 and 2 are the
    documents they were, and the class under the new id is the teacher's,
    empty. *)
Lemma post_create_adds_one_owned_class_witness :
  let w' := snd (serve (post_create (env_at 0) (Some the_teacher) "Physics")
                       sample_world) in
  Classes sample_world !! 9%N = None
  /\ Classes w' !! 1%N = Some sample_class
  /\ exists p, Some the_teacher = Some p /\ role p = "teacher"
               /\ 9%N = new_ObjectId (env_at 0) /\ "Physics" <> ""
               /\ new_Class (env_at 0) "Physics" (id the_teacher)
                  = {| c_id := 9%N; class_name := "Physics";
                       teacher_id := id p; students := []; quizzes := [] |}.
Proof.
  intros w'.
  assert (Hfree : Classes sample_world !! 9%N = None)
    by (vm_compute; reflexivity).
  assert (Hnew : Classes w' !! 9%N
                 = Some (new_Class (env_at 0) "Physics" (id the_teacher)))
    by (vm_compute; reflexivity).
  pose proof (post_create_adds_one_owned_class (env_at 0) (Some the_teacher)
                "Physics" sample_world) as (_ & _ & H1 & H2).
  split; [exact Hfree|].
  split; [exact (H1 1%N sample_class sample_class_stored)|].
  exact (H2 9%N _ Hfree Hnew).
Defined.

(** The teacher of class 1 creates "Physics" and adds the newcomer to it;
    the teacher of class 2 may not. *)
Lemma created_class_belongs_to_its_creator_witness :
  let w1 := snd (serve (post_create (env_at 0) (Some the_teacher) "Physics")
                       sample_world) in
  (exists w2,
     route (post_add_student (env_at 1) (Some the_teacher) 9%N 21%N) w1
       = (Added, w2)
     /\ students <$> Classes w2 !! 9%N = Some [21%N])
  /\ route (post_add_student (env_at 1) (Some another_teacher) 9%N 21%N) w1
     = (NotOwner, w1).
Proof.
  intros w1.
  assert (Hn : Students sample_world !! 21%N = Some new_student)
    by (vm_compute; reflexivity).
  assert (Hne : id another_teacher <> id the_teacher) by discriminate.
  pose proof (created_class_belongs_to_its_creator (env_at 0) (env_at 1)
                the_teacher another_teacher "Physics" 21%N sample_world
                new_student (new_Class (env_at 0) "Physics" 10%N)
                eq_refl eq_refl Hn eq_refl) as [H1 H2].
  split; [exact H1 | exact (H2 eq_refl Hne)].
Defined.


(** Class 3 lists student 77, who has no document. *)
Lemma get_students_fails_on_a_missing_student_witness :
  Classes orphan_world !! 3%N = Some orphan_class
  /\ Students orphan_world !! 77%N = None
  /\ fst (serve (get_students (Some the_student) 3%N) orphan_world)
     = inl Internal.
Proof.
  assert (Hc : Classes orphan_world !! 3%N = Some orphan_class)
    by (vm_compute; reflexivity).
  assert (Hs : Students orphan_world !! 77%N = None)
    by (vm_compute; reflexivity).
  split; [exact Hc|]. split; [exact Hs|].
  apply (proj2 (get_students_fails_on_a_missing_student the_student 3%N
                  orphan_world orphan_class (or_intror eq_refl) Hc)).
  exists 77%N. split; [right; left; reflexivity | exact Hs].
Defined.

(** The newcomer joins class 1 and is the last of its listing. *)
Lemma joined_student_is_listed_witness :
  let w1 := snd (route (post_join (env_at 0) (Some the_newcomer) 1%N)
                       sample_world) in
  route (post_join (env_at 0) (Some the_newcomer) 1%N) sample_world
    = (Joined, w1)
  /\ exists l,
       serve (get_students (Some the_teacher) 1%N) sample_world
         = (inr l, sample_world)
       /\ serve (get_students (Some the_teacher) 1%N) w1
          = (inr (l ++ [student_info new_student])%list, w1).
Proof.
  intros w1.
  assert (Hj : route (post_join (env_at 0) (Some the_newcomer) 1%N)
                     sample_world = (Joined, w1))
    by (vm_compute; reflexivity).
  assert (Hn : Students sample_world !! id the_newcomer = Some new_student)
    by (vm_compute; reflexivity).
  assert (Hall : forall i, In i (students sample_class) ->
                           is_Some (Students sample_world !! i)).
  { intros i [<-|[]]. vm_compute. eauto. }
  split; [exact Hj|].
  exact (joined_student_is_listed (env_at 0) the_newcomer the_teacher 1%N
           sample_world w1 sample_class new_student eq_refl
           sample_class_stored eq_refl Hn eq_refl Hall Hj
           (or_introl eq_refl)).
Defined.

Lemma sample_teachers_present :
  forall i c, Classes sample_world !! i = Some c ->
    listed_for the_student c = true ->
    is_Some (sample_teachers !! teacher_id c).
Proof.
  assert (H : map_Forall
                (fun (_ : ObjectId) c =>
                   listed_for the_student c = true ->
                   is_Some (sample_teachers !! teacher_id c))
                (Classes sample_world))
    by (apply (bool_decide_unpack _); vm_compute; exact I).
  intros i c Hi. exact (map_Forall_lookup_1 _ _ _ _ H Hi).
Qed.

(** The enrolled student is listed class 1 and only class 1. *)
Lemma get_classes_lists_the_callers_classes_witness :
  exists l,
    serve (get_classes sample_teachers (Some the_student)) sample_world
      = (inr l, sample_world)
    /\ In sample_class (map Entry.classObject l)
    /\ ~ In other_class (map Entry.classObject l).
Proof.
  destruct (get_classes_lists_the_callers_classes sample_teachers the_student
              sample_world (or_intror eq_refl) sample_teachers_present)
    as (l & Hl & _ & Hin).
  exists l. split; [exact Hl|]. split.
  - apply Hin. exists 1%N. split; [exact sample_class_stored|].
    left. reflexivity.
  - intros Hother. apply Hin in Hother as (i & _ & Hs). exact Hs.
Defined.

(** Class 3 names teacher 12, who has no document: the listing of its
    student fails; so does the janitor's, whatever is stored. *)
Lemma get_classes_failures_witness :
  fst (serve (get_classes sample_teachers (Some the_student)) orphan_world)
    = inl Internal
  /\ serve (get_classes sample_teachers (Some the_janitor)) sample_world
     = (inl Internal, logged TypeError sample_world).
Proof.
  split.
  - apply (proj1 (get_classes_failures sample_teachers the_student
                    orphan_world) (or_intror eq_refl)).
    exists 3%N, orphan_class.
    split; [vm_compute; reflexivity|]. split; reflexivity.
  - apply (proj1 (proj2 (get_classes_failures sample_teachers the_janitor
                           sample_world))); discriminate.
Defined.

(** The newcomer joins class 1 and finds it in the listing, the newcomer's
    document listing no class. *)
Lemma joined_class_is_listed_witness :
  let w1 := snd (route (post_join (env_at 0) (Some the_newcomer) 1%N)
                       sample_world) in
  route (post_join (env_at 0) (Some the_newcomer) 1%N) sample_world
    = (Joined, w1)
  /\ Students w1 = Students sample_world
  /\ student_classes new_student = []
  /\ exists l e,
       serve (get_classes sample_teachers (Some the_newcomer)) w1 = (inr l, w1)
       /\ In e l
       /\ c_id (Entry.classObject e) = 1%N
       /\ In (id the_newcomer) (students (Entry.classObject e)).
Proof.
  intros w1.
  assert (Hj : route (post_join (env_at 0) (Some the_newcomer) 1%N)
                     sample_world = (Joined, w1))
    by (vm_compute; reflexivity).
  assert (Hn : Students sample_world !! id the_newcomer = Some new_student)
    by (vm_compute; reflexivity).
  assert (Hall : forall i c', Classes w1 !! i = Some c' ->
                   listed_for the_newcomer c' = true ->
                   is_Some (sample_teachers !! teacher_id c')).
  { assert (H : map_Forall
                  (fun (_ : ObjectId) c =>
                     listed_for the_newcomer c = true ->
                     is_Some (sample_teachers !! teacher_id c))
                  (Classes w1))
      by (apply (bool_decide_unpack _); vm_compute; exact I).
    intros i c' Hi. exact (map_Forall_lookup_1 _ _ _ _ H Hi). }
  destruct (joined_class_is_listed sample_teachers (env_at 0) the_newcomer
              1%N sample_world w1 sample_class new_student eq_refl
              sample_class_stored eq_refl Hn eq_refl Hj Hall) as [H1 H2].
  split; [exact Hj|]. split; [exact H1|]. split; [reflexivity | exact H2].
Defined.

(** Sam's token is let through as the student of id 20, who exists. *)
Lemma authenticateToken_admits_existing_users_witness :
  serve (authenticateToken sample_verify sample_teachers
                           (Some "Bearer token-of-sam")) sample_world
    = (inr the_student, sample_world)
  /\ ((role the_student = "teacher"
       /\ is_Some (sample_teachers !! id the_student))
      \/ (role the_student = "student"
          /\ is_Some (Students sample_world !! id the_student))).
Proof.
  assert (H : serve (authenticateToken sample_verify sample_teachers
                       (Some "Bearer token-of-sam")) sample_world
              = (inr the_student, sample_world))
    by (vm_compute; reflexivity).
  split; [exact H|].
  exact (proj2 (proj2 (authenticateToken_admits_existing_users sample_verify
                         sample_teachers (Some "Bearer token-of-sam")
                         sample_world sample_world the_student H))).
Defined.

(** A header without a space, a token nobody signed, and the token of a
    student who has no document. *)
Lemma authenticateToken_refusals_witness :
  serve (authenticateToken sample_verify sample_teachers (Some "Bearer"))
        sample_world
    = (inl TokenMissing, sample_world)
  /\ serve (authenticateToken sample_verify sample_teachers
                              (Some "Bearer forged")) sample_world
     = (inl InvalidToken, sample_world)
  /\ serve (authenticateToken sample_verify sample_teachers
                              (Some "Bearer token-of-nobody")) sample_world
     = (inl UserNotFound, sample_world).
Proof.
  pose proof (authenticateToken_refusals sample_verify sample_teachers
                sample_world) as (_ & H1 & H2).
  split; [|split].
  - apply H1. vm_compute. intros H.
    repeat (destruct H as [H|H]; [discriminate H|]). exact H.
  - assert (Hne : "forged" <> "") by discriminate.
    exact (proj1 (H2 "Bearer forged" "forged" eq_refl Hne) eq_refl).
  - assert (Hne : "token-of-nobody" <> "") by discriminate.
    refine (proj2 (proj2 (H2 "Bearer token-of-nobody" "token-of-nobody"
                            eq_refl Hne))
              {| id := 99%N; role := "student" |} eq_refl _).
    right. right. split; [reflexivity | vm_compute; reflexivity].
Defined.

(** Sam, let through by the token check, joins class 2. *)
Lemma admitted_student_can_join_witness :
  serve (authenticateToken sample_verify sample_teachers
                           (Some "Bearer token-of-sam")) sample_world
    = (inr the_student, sample_world)
  /\ Class_valid other_class = true
  /\ (fst (route (post_join (env_at 0) (Some the_student) 2%N) sample_world)
        = Joined
      \/ fst (route (post_join (env_at 0) (Some the_student) 2%N) sample_world)
         = AlreadyMember).
Proof.
  assert (H : serve (authenticateToken sample_verify sample_teachers
                       (Some "Bearer token-of-sam")) sample_world
              = (inr the_student, sample_world))
    by (vm_compute; reflexivity).
  assert (Hc : Classes sample_world !! 2%N = Some other_class)
    by (vm_compute; reflexivity).
  split; [exact H|]. split; [reflexivity|].
  exact (admitted_student_can_join sample_verify sample_teachers
           (Some "Bearer token-of-sam") (env_at 0) 2%N sample_world
           sample_world the_student other_class H eq_refl Hc eq_refl
           eq_refl).
Defined.
